(** * The reactive query pipeline of app.py

    A shallow embedding of the three effects of [app.py]
    ([load_country_list], [update_country_stats], [load_filtered_data]),
    of the reactive variables they read and write, of the DuckDB
    statements they send, and of what [CityMap] and the range slider
    show of them, followed by the properties of the pipeline. *)

From Stdlib Require Import ZArith QArith_base String Ascii List.
From stdpp Require Import base decidable option list strings sorting pretty gmap.

Local Open Scope string_scope.
Local Open Scope Z_scope.

(** ** 0. Configuration and data *)

Definition DB_SOURCE : string := "https://data.gishub.org/duckdb/cities.csv".

(** A row of the CSV, with the five columns the main query selects.
    The coordinates are the decimal numbers written in the file. *)
Record CityRecord : Type := {
  name : string;
  country : string;
  population : Z;
  latitude : Q;
  longitude : Q
}.

Global Instance Q_eq_dec : EqDecision Q.
Proof. solve_decision. Defined.

Global Instance CityRecord_eq_dec : EqDecision CityRecord.
Proof. solve_decision. Defined.

(** A [pd.DataFrame] of city rows; [pd.DataFrame()] is the empty one. *)
Definition DataFrame : Type := list CityRecord.
Definition empty_DataFrame : DataFrame := [].

(** ** 1. The DuckDB side *)

(** What a Python call does: it returns a value or raises. *)
Inductive outcome (A : Type) : Type :=
  | Returned (a : A)
  | Raised (e : string).
Arguments Returned {A} a.
Arguments Raised {A} e.

(** *** Interpolated string literals

    The statements are f-strings: the country is pasted between two
    apostrophes.  DuckDB reads a string literal from the opening
    apostrophe up to the first apostrophe that is not doubled; a doubled
    apostrophe stands for one.  [scan_literal c] is what the text
    ['{c}'] denotes: [Closed v] when the literal ends exactly at the
    apostrophe the f-string adds (its value is [v]), and [Broken] when it
    ends earlier (the rest of [c] is then read as SQL) or later (a last
    lone apostrophe of [c] pairs with the closing one). *)
Inductive SqlLiteral : Type :=
  | Closed (value : string)
  | Broken.

Definition literal_cons (a : ascii) (l : SqlLiteral) : SqlLiteral :=
  match l with
  | Closed v => Closed (String a v)
  | Broken => Broken
  end.

Definition apostrophe : ascii := "'"%char.

Fixpoint scan_literal (c : string) : SqlLiteral :=
  match c with
  | EmptyString => Closed ""
  | String a rest =>
      if Ascii.eqb a apostrophe then
        match rest with
        | String b rest' =>
            if Ascii.eqb b apostrophe
            then literal_cons apostrophe (scan_literal rest')
            else Broken
        | EmptyString => Broken
        end
      else literal_cons a (scan_literal rest)
  end.

Fixpoint apostrophe_free (c : string) : bool :=
  match c with
  | EmptyString => true
  | String a rest => negb (Ascii.eqb a apostrophe) && apostrophe_free rest
  end.

(** *** The data source

    Every call opens its own connection and reads the CSV again, so the
    data source is an argument of each effect: the rows the file holds
    at that call, and whether a step of the call fails.  A statement
    whose interpolated literal is [Broken] is no longer one of the three
    statements of the program; what DuckDB answers to it (most often a
    parser error) is left to the data source. *)
Record DataSource : Type := {
  cities : list CityRecord;
  install_error : option string;   (* con.install_extension("httpfs") raises *)
  load_error : option string;      (* con.load_extension("httpfs") raises *)
  sql_error : option string;       (* con.sql(...) raises: network, file, columns *)
  broken_max : string -> outcome (option Z);
  broken_rows : string -> Z -> Z -> outcome DataFrame
}.

(** *** The three statements *)

(** [ORDER BY country]: byte order on strings. *)
Definition order_by_country (l : list string) : list string :=
  merge_sort String.le l.

(** [SELECT DISTINCT country FROM ... ORDER BY country], then
    [[row[0] for row in result]]. *)
Definition distinct_countries (rows : list CityRecord) : list string :=
  order_by_country (remove_dups (map country rows)).

(** [WHERE country = v]. *)
Definition where_country (v : string) (rows : list CityRecord) : list CityRecord :=
  filter (fun r => country r = v) rows.

(** [MAX(...)]: NULL ([None]) over no rows. *)
Definition sql_MAX (l : list Z) : option Z :=
  foldr (fun p acc => Some (match acc with
                            | None => p
                            | Some q => Z.max p q
                            end)) None l.

(** [SELECT MAX(population) FROM ... WHERE country = v]. *)
Definition max_population (rows : list CityRecord) (v : string) : option Z :=
  sql_MAX (map population (where_country v rows)).

(** [population BETWEEN lo AND hi]: both ends included. *)
Definition between (lo hi : Z) (r : CityRecord) : Prop :=
  lo <= population r <= hi.

Global Instance between_dec lo hi r : Decision (between lo hi r).
Proof. unfold between. apply _. Defined.

(** [ORDER BY population DESC]: [a] may come before [b].  The order of
    rows of equal population is the engine's choice; the sort below
    fixes one such order, which need not be the one DuckDB picks, and no
    property of this file speaks of the order or choice of tied rows. *)
Definition population_desc (a b : CityRecord) : Prop :=
  population b <= population a.

Global Instance population_desc_dec : RelDecision population_desc.
Proof. intros a b. unfold population_desc. apply _. Defined.

Definition order_by_population_desc (rows : list CityRecord) : list CityRecord :=
  merge_sort population_desc rows.

Definition LIMIT : nat := 500.

(** [SELECT name, country, population, latitude, longitude FROM ...
     WHERE country = v AND population BETWEEN lo AND hi
     ORDER BY population DESC LIMIT 500]. *)
Definition filtered_cities (rows : list CityRecord) (v : string) (lo hi : Z)
  : DataFrame :=
  take LIMIT
    (order_by_population_desc
       (filter (between lo hi) (where_country v rows))).

(** [con.sql(f"SELECT DISTINCT country ...").fetchall()]. *)
Definition sql_distinct_countries (ds : DataSource) : outcome (list string) :=
  match sql_error ds with
  | Some e => Raised e
  | None => Returned (distinct_countries (cities ds))
  end.

(** [con.sql(f"SELECT MAX(population) ... WHERE country = '{country}'").fetchone()[0]]. *)
Definition sql_max_population (ds : DataSource) (c : string)
  : outcome (option Z) :=
  match sql_error ds with
  | Some e => Raised e
  | None =>
      match scan_literal c with
      | Closed v => Returned (max_population (cities ds) v)
      | Broken => broken_max ds c
      end
  end.

(** [con.sql(sql_query).df()] of the main query. *)
Definition sql_filtered_cities (ds : DataSource) (c : string) (lo hi : Z)
  : outcome DataFrame :=
  match sql_error ds with
  | Some e => Raised e
  | None =>
      match scan_literal c with
      | Closed v => Returned (filtered_cities (cities ds) v lo hi)
      | Broken => broken_rows ds c lo hi
      end
  end.

(** ** 2. State: the reactive variables

    [solara.reactive(v)] is a cell holding [v]: [.value] reads it and
    [.set(x)] replaces it by [x], whatever [x] is. *)
Record PipelineState : Type := {
  all_countries : list string;
  selected_country : string;
  population_range : Z * Z;
  max_population_in_country : Z;
  data_df : DataFrame;
  is_loading : bool
}.

Definition initial_state : PipelineState := {|
  all_countries := [];
  selected_country := "";
  population_range := (0, 1000000);
  max_population_in_country := 1000000;
  data_df := empty_DataFrame;
  is_loading := false
|}.

(** What happens to connections, oldest event first.  A connection is
    named by the position of its [Connect] among the connections made. *)
Inductive DbEvent : Type :=
  | Connect (con : nat)
  | Extension (con : nat)
  | Sql (con : nat)
  | Close (con : nat).

Global Instance DbEvent_eq_dec : EqDecision DbEvent.
Proof. solve_decision. Defined.

(** Everything an effect can touch: the reactive variables, what was
    printed, and the connections. *)
Record World : Type := {
  store : PipelineState;
  stdout : list string;
  db_log : list DbEvent
}.

Definition initial_world : World :=
  {| store := initial_state; stdout := []; db_log := [] |}.

Definition is_Connect (ev : DbEvent) : bool :=
  match ev with Connect _ => true | _ => false end.

Definition connections_made (w : World) : nat :=
  length (filter (fun ev => is_Connect ev = true) (db_log w)).

(** Connections that were opened and not closed since. *)
Definition open_connections (w : World) : list nat :=
  filter (fun c => Close c ∉ db_log w) (seq 0 (connections_made w)).

(** *** Effects: state passing with exceptions *)

Definition Eff (A : Type) : Type := World -> outcome A * World.

Global Instance Eff_ret : MRet Eff := fun A a w => (Returned a, w).

Global Instance Eff_bind : MBind Eff := fun A B k m w =>
  match m w with
  | (Returned a, w') => k a w'
  | (Raised e, w') => (Raised e, w')
  end.

Definition raise {A} (e : string) : Eff A := fun w => (Raised e, w).

(** [try: body  except Exception as e: handler e]. *)
Definition try_except {A} (body : Eff A) (handler : string -> Eff A) : Eff A :=
  fun w =>
    match body w with
    | (Returned a, w') => (Returned a, w')
    | (Raised e, w') => handler e w'
    end.

(** [try: body  finally: cleanup]: the cleanup runs on both exits, and
    what it raises replaces the outcome of the body. *)
Definition try_finally {A} (body : Eff A) (cleanup : Eff unit) : Eff A :=
  fun w =>
    match body w with
    | (r, w') =>
        match cleanup w' with
        | (Returned _, w'') => (r, w'')
        | (Raised e, w'') => (Raised e, w'')
        end
    end.

Definition modify_store (f : PipelineState -> PipelineState) : Eff unit :=
  fun w => (Returned tt,
            {| store := f (store w); stdout := stdout w; db_log := db_log w |}).

Definition read {A} (field : PipelineState -> A) : Eff A :=
  fun w => (Returned (field (store w)), w).

Definition print (line : string) : Eff unit :=
  fun w => (Returned tt,
            {| store := store w; stdout := stdout w ++ [line];
               db_log := db_log w |}).

Definition db_event (ev : DbEvent) : Eff unit :=
  fun w => (Returned tt,
            {| store := store w; stdout := stdout w;
               db_log := db_log w ++ [ev] |}).

(** The [.set] of each reactive variable. *)
Definition all_countries_set (v : list string) : Eff unit :=
  modify_store (fun s =>
    {| all_countries := v; selected_country := selected_country s;
       population_range := population_range s;
       max_population_in_country := max_population_in_country s;
       data_df := data_df s; is_loading := is_loading s |}).

Definition selected_country_set (v : string) : Eff unit :=
  modify_store (fun s =>
    {| all_countries := all_countries s; selected_country := v;
       population_range := population_range s;
       max_population_in_country := max_population_in_country s;
       data_df := data_df s; is_loading := is_loading s |}).

Definition population_range_set (v : Z * Z) : Eff unit :=
  modify_store (fun s =>
    {| all_countries := all_countries s;
       selected_country := selected_country s;
       population_range := v;
       max_population_in_country := max_population_in_country s;
       data_df := data_df s; is_loading := is_loading s |}).

Definition max_population_in_country_set (v : Z) : Eff unit :=
  modify_store (fun s =>
    {| all_countries := all_countries s;
       selected_country := selected_country s;
       population_range := population_range s;
       max_population_in_country := v;
       data_df := data_df s; is_loading := is_loading s |}).

Definition data_df_set (v : DataFrame) : Eff unit :=
  modify_store (fun s =>
    {| all_countries := all_countries s;
       selected_country := selected_country s;
       population_range := population_range s;
       max_population_in_country := max_population_in_country s;
       data_df := v; is_loading := is_loading s |}).

Definition is_loading_set (v : bool) : Eff unit :=
  modify_store (fun s =>
    {| all_countries := all_countries s;
       selected_country := selected_country s;
       population_range := population_range s;
       max_population_in_country := max_population_in_country s;
       data_df := data_df s; is_loading := v |}).

(** *** Connections *)

Definition lift_outcome {A} (r : outcome A) : Eff A := fun w => (r, w).

Definition raise_if (err : option string) : Eff unit :=
  match err with
  | Some e => raise e
  | None => mret tt
  end.

(** [duckdb.connect(database=":memory:")]: a new connection each time. *)
Definition duckdb_connect : Eff nat :=
  fun w =>
    let con := connections_made w in
    (db_event (Connect con) ;; mret con) w.

Definition install_extension (ds : DataSource) (con : nat) : Eff unit :=
  raise_if (install_error ds) ;; db_event (Extension con).

Definition load_extension (ds : DataSource) (con : nat) : Eff unit :=
  raise_if (load_error ds) ;; db_event (Extension con).

Definition get_db_connection (ds : DataSource) : Eff nat :=
  con ← duckdb_connect;
  install_extension ds con ;;
  load_extension ds con ;;
  mret con.

(** [con.sql(...)] on connection [con]: the statement is sent, then it
    answers or raises. *)
Definition con_sql {A} (con : nat) (answer : outcome A) : Eff A :=
  db_event (Sql con) ;; lift_outcome answer.

Definition con_close (con : nat) : Eff unit := db_event (Close con).

(** ** 3. The effects *)

(** Python's [if x:] on a result that is NULL or a number. *)
Definition truthy (x : option Z) : bool :=
  match x with
  | None => false
  | Some n => negb (n =? 0)
  end.

(** [int(max_pop)] on an integer answer.  The population column holds
    integers here, so the answer of [MAX] is one; on a fractional answer
    Python would truncate. *)
Definition int (n : Z) : Z := n.

Definition load_country_list (ds : DataSource) : Eff unit :=
  print "Loading country list..." ;;
  try_except
    (con ← get_db_connection ds;
     country_list ← con_sql con (sql_distinct_countries ds);
     all_countries_set country_list ;;
     (if decide ("USA" ∈ country_list) then selected_country_set "USA"
      else match country_list with
           | first :: _ => selected_country_set first
           | [] => mret tt
           end) ;;
     con_close con)
    (fun e => print ("Error loading countries: " +:+ e)).

Definition update_country_stats (ds : DataSource) : Eff unit :=
  country ← read selected_country;
  if decide (country = "") then mret tt else
  con ← get_db_connection ds;
  try_finally
    (try_except
       (max_pop ← con_sql con (sql_max_population ds country);
        if truthy max_pop then
          max_population_in_country_set (int (default 0 max_pop)) ;;
          population_range_set (0, int (default 0 max_pop))
        else mret tt)
       (fun e => print ("Error getting stats: " +:+ e)))
    (con_close con).

Definition load_filtered_data (ds : DataSource) : Eff unit :=
  country ← read selected_country;
  '(pop_min, pop_max) ← read population_range;
  if decide (country = "") then mret tt else
  is_loading_set true ;;
  print ("Querying: " +:+ country +:+ ", Pop: " +:+ pretty pop_min
           +:+ "-" +:+ pretty pop_max) ;;
  con ← get_db_connection ds;
  try_finally
    (try_except
       (df_result ← con_sql con (sql_filtered_cities ds country pop_min pop_max);
        data_df_set df_result)
       (fun e => print ("Error executing query: " +:+ e) ;;
                 data_df_set empty_DataFrame))
    (con_close con ;; is_loading_set false).

(** ** 4. A query in flight

    [load_filtered_data] blocks in [con.sql(...)].  Until the statement
    answers, all it keeps is its local variables; once it has answered,
    the function writes [data_df] and [is_loading] and does not read a
    reactive variable again.  The two halves, around that call: *)
Record Frame : Type := {
  frame_country : string;
  frame_pop_min : Z;
  frame_pop_max : Z;
  frame_con : nat
}.

Definition load_filtered_data_begin (ds : DataSource) : Eff (option Frame) :=
  country ← read selected_country;
  '(pop_min, pop_max) ← read population_range;
  if decide (country = "") then mret None else
  is_loading_set true ;;
  print ("Querying: " +:+ country +:+ ", Pop: " +:+ pretty pop_min
           +:+ "-" +:+ pretty pop_max) ;;
  con ← get_db_connection ds;
  mret (Some {| frame_country := country; frame_pop_min := pop_min;
                frame_pop_max := pop_max; frame_con := con |}).

Definition load_filtered_data_finish (ds : DataSource) (fr : Frame) : Eff unit :=
  try_finally
    (try_except
       (df_result ← con_sql (frame_con fr)
                      (sql_filtered_cities ds (frame_country fr)
                         (frame_pop_min fr) (frame_pop_max fr));
        data_df_set df_result)
       (fun e => print ("Error executing query: " +:+ e) ;;
                 data_df_set empty_DataFrame))
    (con_close (frame_con fr) ;; is_loading_set false).

(** A host that lets a selection change, or another run of the effect
    start, while a query is in flight.  Runs of [load_filtered_data]
    are named by a task number; [update_country_stats] runs in one
    piece. *)
Inductive HostEvent : Type :=
  | SelectCountry (c : string)
  | BoundsRefreshed
  | EffectStarts (task : nat)
  | QueryCompletes (task : nat).

Record Host : Type := {
  world : World;
  in_flight : gmap nat Frame
}.

Definition host_step (ds : DataSource) (h : Host) (ev : HostEvent) : Host :=
  match ev with
  | SelectCountry c =>
      {| world := snd (selected_country_set c (world h));
         in_flight := in_flight h |}
  | BoundsRefreshed =>
      {| world := snd (update_country_stats ds (world h));
         in_flight := in_flight h |}
  | EffectStarts task =>
      match load_filtered_data_begin ds (world h) with
      | (Returned (Some fr), w') =>
          {| world := w'; in_flight := <[task := fr]> (in_flight h) |}
      | (_, w') => {| world := w'; in_flight := in_flight h |}
      end
  | QueryCompletes task =>
      match in_flight h !! task with
      | Some fr =>
          {| world := snd (load_filtered_data_finish ds fr (world h));
             in_flight := delete task (in_flight h) |}
      | None => h
      end
  end.

Definition host_run (ds : DataSource) (h : Host) (evs : list HostEvent) : Host :=
  foldl (host_step ds) h evs.

(** ** 5. What the pipeline is expected to maintain *)

(** A result set for the query [(v, lo, hi)]: rows of country [v], of
    population within the range, by non-increasing population, at most
    500 of them. *)
Record ResultSet_for (v : string) (lo hi : Z) (df : DataFrame) : Prop := {
  rs_country : Forall (fun r => country r = v) df;
  rs_range : Forall (fun r => lo <= population r <= hi) df;
  rs_sorted : StronglySorted population_desc df;
  rs_length : (length df <= 500)%nat
}.

(** The selected country is empty or one of the list. *)
Definition SelectedCountry_valid (s : PipelineState) : Prop :=
  selected_country s = "" \/ selected_country s ∈ all_countries s.

(** The bounds held by [w'] are those of country [c] in the data. *)
Definition bounds_refreshed_to (ds : DataSource) (c : string) (w' : World) : Prop :=
  exists m, max_population (cities ds) c = Some m /\ 0 <= m /\
    max_population_in_country (store w') = m /\
    population_range (store w') = (0, m).

(** The selection [load_country_list] leaves, given the list it loaded
    and the selection it found. *)
Definition default_selection (countries : list string) (previous : string) : string :=
  if decide ("USA" ∈ countries) then "USA"
  else match countries with
       | first :: _ => first
       | [] => previous
       end.

(** The first step of a call that fails, if any: installing or loading
    the extension, or the statement itself. *)
Definition call_failure (ds : DataSource) : option string :=
  match install_error ds, load_error ds, sql_error ds with
  | Some e, _, _ => Some e
  | None, Some e, _ => Some e
  | None, None, err => err
  end.

(** *** Sample data *)

(** A data source on which no step fails. *)
Definition healthy (rows : list CityRecord) : DataSource := {|
  cities := rows;
  install_error := None;
  load_error := None;
  sql_error := None;
  broken_max := fun _ => Raised "Parser Error: syntax error";
  broken_rows := fun _ _ _ => Raised "Parser Error: syntax error"
|}.

(** The same rows behind a network that is down: the extension cannot
    be installed. *)
Definition offline (rows : list CityRecord) : DataSource := {|
  cities := rows;
  install_error := Some "IO Error: Failed to download extension httpfs";
  load_error := None;
  sql_error := None;
  broken_max := fun _ => Raised "Parser Error: syntax error";
  broken_rows := fun _ _ _ => Raised "Parser Error: syntax error"
|}.

(** The same rows behind a file that cannot be read: statements fail. *)
Definition unreadable (rows : list CityRecord) : DataSource := {|
  cities := rows;
  install_error := None;
  load_error := None;
  sql_error := Some "IO Error: Cannot open file";
  broken_max := fun _ => Raised "Parser Error: syntax error";
  broken_rows := fun _ _ _ => Raised "Parser Error: syntax error"
|}.

Definition example_city (n c : string) (p : Z) : CityRecord :=
  {| name := n; country := c; population := p;
     latitude := 0%Q; longitude := 0%Q |}.

Definition sample_cities : list CityRecord :=
  [ example_city "New York" "USA" 8419000;
    example_city "LA" "USA" 3980000;
    example_city "Paris" "France" 2148000 ].

(** The sample data once the country list is loaded: the list is
    France, USA, and the USA are selected. *)
Definition sample_loaded : World :=
  snd (load_country_list (healthy sample_cities) initial_world).

(** What the two controls of the sidebar write. *)
Definition user_selects (c : string) (range : Z * Z) (w : World) : World :=
  snd ((selected_country_set c ;; population_range_set range) w).

(** A country of 501 cities, of populations 0 to 500. *)
Definition crowded_cities : list CityRecord :=
  map (fun n => example_city "Town" "Crowded" (Z.of_nat n)) (seq 0 501).
Definition crowded_world : World :=
  user_selects "Crowded" (0, 1000) initial_world.

(** A country whose name, written with a doubled apostrophe, is the SQL
    spelling of another one. *)
Definition escaped_cities : list CityRecord :=
  [ example_city "Dublin" "O'Neil" 5;
    example_city "Cork" "O''Neil" 7 ].
Definition escaped_world : World :=
  snd (load_country_list (healthy escaped_cities) initial_world).

(** A country whose largest city has population zero. *)
Definition ghost_cities : list CityRecord :=
  [ example_city "Ghost Town" "Nowhere" 0 ].
Definition ghost_world : World :=
  snd (load_country_list (healthy ghost_cities) initial_world).

(** France was queried and is displayed; the user then picks the USA. *)
Definition france_shown : World :=
  snd (load_filtered_data (healthy sample_cities)
         (user_selects "France" (0, 9000000) initial_world)).
Definition usa_picked : World :=
  user_selects "USA" (0, 9000000) france_shown.

(** The USA are picked, then France while the query for the USA is in
    flight; the query for France answers first. *)
Definition rapid_switch : list HostEvent :=
  [ SelectCountry "USA"; BoundsRefreshed; EffectStarts 1;
    SelectCountry "France"; BoundsRefreshed; EffectStarts 2;
    QueryCompletes 2; QueryCompletes 1 ].
Definition idle_host : Host :=
  {| world := sample_loaded; in_flight := ∅ |}.

(** ** What is rendered

    [CityMap], and the range slider of the sidebar of [Page].
    Coordinates are taken as exact decimal numbers; the centre of the
    map is their exact mean, where pandas rounds to a double, and no
    property below speaks of it. *)








(** The range slider of the sidebar. *)
Record SliderRangeInt : Type := {
  slider_min : Z;
  slider_max : Z;
  slider_step : Z;
  slider_value : Z * Z
}.

Definition Page_slider (s : PipelineState) : SliderRangeInt := {|
  slider_min := 0;
  slider_max := max_population_in_country s;
  slider_step := 1000;
  slider_value := population_range s
|}.

(** The reactive variables once an effect has run, returned or raised. *)
Definition state_after (effect : Eff unit) (w : World) : PipelineState :=
  store (snd (effect w)).

(** The main query is sent for the selection and range of [w] and is
    answered: the connection is obtained, a country is selected, its
    literal is complete and denotes [v], and the statement does not
    raise. *)
Definition query_answered (ds : DataSource) (w : World) (v : string) (lo hi : Z)
  : Prop :=
  call_failure ds = None /\
  selected_country (store w) <> "" /\
  scan_literal (selected_country (store w)) = Closed v /\
  population_range (store w) = (lo, hi).

(** The rows of the data that the main query asks for. *)
Definition matching_cities (rows : list CityRecord) (v : string) (lo hi : Z)
  : list CityRecord :=
  filter (between lo hi) (where_country v rows).

(** The slider's value lies within the slider. *)
Definition slider_in_bounds (sl : SliderRangeInt) : Prop :=
  slider_min sl <= fst (slider_value sl) /\
  fst (slider_value sl) <= snd (slider_value sl) /\
  snd (slider_value sl) <= slider_max sl.


(** ** 6. Facts about the statements *)

Section literals.

Lemma scan_literal_apostrophe_free (c : string) :
  apostrophe_free c = true -> scan_literal c = Closed c.
Proof.
  induction c as [|a rest IH]; simpl; [reflexivity|].
  intros [Ha Hrest]%andb_prop.
  destruct (Ascii.eqb a apostrophe); [discriminate|].
  rewrite (IH Hrest). reflexivity.
Qed.

End literals.

Section ordering.

Global Instance population_desc_trans : Transitive population_desc.
Proof. intros a b c. unfold population_desc. lia. Qed.

Global Instance population_desc_total : Total population_desc.
Proof. intros a b. unfold population_desc. lia. Qed.

Lemma StronglySorted_take {A} (R : relation A) (n : nat) (l : list A) :
  StronglySorted R l -> StronglySorted R (take n l).
Proof.
  intros Hl. revert n.
  induction Hl as [|a l Hl IH Ha]; intros [|n]; simpl; try constructor.
  - apply IH.
  - by apply Forall_take.
Qed.

Lemma order_by_population_desc_sorted (rows : list CityRecord) :
  StronglySorted population_desc (order_by_population_desc rows).
Proof. apply StronglySorted_merge_sort; apply _. Qed.

Lemma order_by_population_desc_Forall (P : CityRecord -> Prop) rows :
  Forall P rows -> Forall P (order_by_population_desc rows).
Proof.
  unfold order_by_population_desc.
  by rewrite merge_sort_Permutation.
Qed.

End ordering.

Section statements.

Lemma Forall_filter_intro {A} (P Q : A -> Prop) `{!forall x, Decision (P x)}
    (l : list A) :
  (forall x, P x -> Q x) -> Forall Q (filter P l).
Proof.
  intros HPQ. apply Forall_forall. intros x [HP _]%list_elem_of_filter.
  by apply HPQ.
Qed.

Lemma Forall_filter_keep {A} (P Q : A -> Prop) `{!forall x, Decision (P x)}
    (l : list A) :
  Forall Q l -> Forall Q (filter P l).
Proof.
  rewrite !Forall_forall. intros HQ x [_ Hx]%list_elem_of_filter. by apply HQ.
Qed.

Lemma filtered_cities_ResultSet rows v lo hi :
  ResultSet_for v lo hi (filtered_cities rows v lo hi).
Proof.
  unfold filtered_cities. split.
  - apply Forall_take, order_by_population_desc_Forall, Forall_filter_keep.
    unfold where_country. by apply Forall_filter_intro.
  - apply Forall_take, order_by_population_desc_Forall.
    by apply Forall_filter_intro.
  - apply StronglySorted_take, order_by_population_desc_sorted.
  - rewrite length_take. unfold LIMIT. lia.
Qed.

Lemma empty_ResultSet v lo hi : ResultSet_for v lo hi empty_DataFrame.
Proof. split; try constructor. simpl. lia. Qed.

Lemma sql_MAX_None (l : list Z) : sql_MAX l = None <-> l = [].
Proof. destruct l; simpl; split; congruence. Qed.

Lemma sql_MAX_elem (l : list Z) (m : Z) :
  sql_MAX l = Some m -> m ∈ l /\ Forall (fun p => p <= m) l.
Proof.
  revert m. induction l as [|p l IH]; simpl; [discriminate|].
  intros m [= <-]. destruct (sql_MAX l) as [q|] eqn:Hq.
  - destruct (IH q eq_refl) as [Hin Hall]. split.
    + destruct (Z.max_spec p q) as [[_ ->]|[_ ->]];
        [by apply list_elem_of_further | apply list_elem_of_here].
    + constructor; [lia|].
      eapply Forall_impl; [exact Hall|]. simpl. lia.
  - apply sql_MAX_None in Hq as ->. split; [apply list_elem_of_here|].
    constructor; [lia|constructor].
Qed.

Lemma max_population_nonneg rows v m :
  Forall (fun r => 0 <= population r) rows ->
  max_population rows v = Some m -> 0 <= m.
Proof.
  intros Hrows [Hin _]%sql_MAX_elem.
  apply list_elem_of_fmap in Hin as (r & -> & [_ Hr]%list_elem_of_filter).
  rewrite Forall_forall in Hrows. by apply Hrows.
Qed.

Lemma max_population_is_Some rows v :
  v ∈ map country rows -> is_Some (max_population rows v).
Proof.
  intros (r & -> & Hr)%list_elem_of_fmap.
  unfold max_population.
  destruct (sql_MAX _) as [m|] eqn:Hm; [by eexists|].
  apply sql_MAX_None in Hm. exfalso.
  assert (Hin : population r ∈ map population (where_country (country r) rows)).
  { apply list_elem_of_fmap. exists r. split; [done|].
    apply list_elem_of_filter. by split. }
  rewrite Hm in Hin. by apply elem_of_nil in Hin.
Qed.

Lemma elem_of_distinct_countries rows c :
  c ∈ distinct_countries rows <-> c ∈ map country rows.
Proof.
  unfold distinct_countries, order_by_country.
  by rewrite merge_sort_Permutation, elem_of_remove_dups.
Qed.

End statements.

(** ** 7. Running the effects *)

Ltac unfold_eff :=
  unfold get_db_connection, duckdb_connect, install_extension, load_extension,
    con_sql, con_close, try_finally, try_except, raise_if, raise,
    lift_outcome, read, print, db_event,
    all_countries_set, selected_country_set, population_range_set,
    max_population_in_country_set, data_df_set, is_loading_set,
    modify_store, mbind, mret, Eff_bind, Eff_ret.

Section connections.

Variable ds : DataSource.
Hypothesis install_ok : install_error ds = None.
Hypothesis load_ok : load_error ds = None.

Lemma get_db_connection_returns (w : World) :
  get_db_connection ds w =
    (Returned (connections_made w),
     {| store := store w; stdout := stdout w;
        db_log := db_log w ++ [Connect (connections_made w);
                               Extension (connections_made w);
                               Extension (connections_made w)] |}).
Proof.
  unfold_eff. rewrite install_ok, load_ok. simpl.
  by rewrite <- !app_assoc.
Qed.

End connections.

Lemma get_db_connection_install_raises ds w e :
  install_error ds = Some e ->
  get_db_connection ds w =
    (Raised e,
     {| store := store w; stdout := stdout w;
        db_log := db_log w ++ [Connect (connections_made w)] |}).
Proof. intros He. unfold_eff. by rewrite He. Qed.

(** ** 8. The main query *)

(** [load_filtered_data] publishes a [ResultSet_for] the value that the
    interpolated literal of the selected country denotes. *)
Lemma load_filtered_data_publishes ds w c v lo hi :
  selected_country (store w) = c -> c <> "" ->
  population_range (store w) = (lo, hi) ->
  scan_literal c = Closed v ->
  install_error ds = None -> load_error ds = None ->
  exists w', load_filtered_data ds w = (Returned tt, w') /\
    ResultSet_for v lo hi (data_df (store w')) /\
    is_loading (store w') = false.
Proof.
  intros Hc Hne Hr Hv Hi Hl.
  unfold load_filtered_data. unfold_eff. rewrite Hc, Hr, Hi, Hl. simpl.
  destruct (decide (c = "")) as [|_]; [done|]. simpl.
  unfold sql_filtered_cities. rewrite Hv.
  destruct (sql_error ds) as [e|]; simpl;
    (eexists; split; [reflexivity|]; simpl; split; [|reflexivity]).
  - apply empty_ResultSet.
  - apply filtered_cities_ResultSet.
Qed.

(** The two halves of [load_filtered_data] make the whole. *)
Lemma load_filtered_data_phases ds w :
  load_filtered_data ds w =
    (fr ← load_filtered_data_begin ds;
     match fr with
     | Some fr => load_filtered_data_finish ds fr
     | None => mret tt
     end) w.
Proof.
  unfold load_filtered_data, load_filtered_data_begin,
    load_filtered_data_finish.
  unfold mbind, mret, Eff_bind, Eff_ret, read.
  destruct (population_range (store w)) as [lo hi].
  destruct (decide (selected_country (store w) = "")); [reflexivity|].
  destruct (is_loading_set true w) as [[[]|e] w1]; [|reflexivity].
  destruct (print _ w1) as [[[]|e] w2]; [|reflexivity].
  destruct (get_db_connection ds w2) as [[con|e] w3]; reflexivity.
Qed.

(** Once its query has answered, the effect publishes the answer for
    the frame it was started with, whatever the store holds by then. *)
Lemma load_filtered_data_finish_runs ds fr w :
  load_filtered_data_finish ds fr w =
    (Returned tt,
     {| store :=
          {| all_countries := all_countries (store w);
             selected_country := selected_country (store w);
             population_range := population_range (store w);
             max_population_in_country := max_population_in_country (store w);
             data_df :=
               match sql_filtered_cities ds (frame_country fr)
                       (frame_pop_min fr) (frame_pop_max fr) with
               | Returned df => df
               | Raised _ => empty_DataFrame
               end;
             is_loading := false |};
        stdout :=
          match sql_filtered_cities ds (frame_country fr)
                  (frame_pop_min fr) (frame_pop_max fr) with
          | Returned _ => stdout w
          | Raised e => stdout w ++ ["Error executing query: " +:+ e]
          end;
        db_log := db_log w ++ [Sql (frame_con fr); Close (frame_con fr)] |}).
Proof.
  unfold load_filtered_data_finish. unfold_eff. simpl.
  destruct (sql_filtered_cities _ _ _ _) as [df|e]; simpl;
    by rewrite <- app_assoc.
Qed.

(** ** 9. The country list *)

Lemma call_failure_None ds :
  call_failure ds = None <->
  install_error ds = None /\ load_error ds = None /\ sql_error ds = None.
Proof.
  unfold call_failure.
  destruct (install_error ds), (load_error ds), (sql_error ds);
    intuition congruence.
Qed.

Lemma load_country_list_success ds w :
  call_failure ds = None ->
  load_country_list ds w =
    (Returned tt,
     {| store :=
          {| all_countries := distinct_countries (cities ds);
             selected_country :=
               default_selection (distinct_countries (cities ds))
                 (selected_country (store w));
             population_range := population_range (store w);
             max_population_in_country := max_population_in_country (store w);
             data_df := data_df (store w);
             is_loading := is_loading (store w) |};
        stdout := stdout w ++ ["Loading country list..."];
        db_log := db_log w ++ [Connect (connections_made w);
                               Extension (connections_made w);
                               Extension (connections_made w);
                               Sql (connections_made w);
                               Close (connections_made w)] |}).
Proof.
  intros (Hi & Hl & Hs)%call_failure_None.
  unfold load_country_list, sql_distinct_countries, default_selection.
  unfold_eff. rewrite Hi, Hl, Hs. simpl.
  unfold connections_made at 1 2 3 4 5. simpl.
  destruct (decide ("USA" ∈ distinct_countries (cities ds))); simpl.
  - by rewrite <- !app_assoc.
  - destruct (distinct_countries (cities ds)); simpl;
      by rewrite <- !app_assoc.
Qed.

Lemma load_country_list_failure ds w e :
  call_failure ds = Some e ->
  exists log',
    load_country_list ds w =
      (Returned tt,
       {| store := store w;
          stdout := stdout w ++ ["Loading country list...";
                                 "Error loading countries: " +:+ e];
          db_log := log' |}).
Proof.
  unfold call_failure, load_country_list, sql_distinct_countries.
  unfold_eff.
  destruct (install_error ds) as [e1|]; simpl.
  { intros [= ->]. eexists. by rewrite <- app_assoc. }
  destruct (load_error ds) as [e2|]; simpl.
  { intros [= ->]. eexists. by rewrite <- app_assoc. }
  intros ->. simpl. eexists. by rewrite <- app_assoc.
Qed.

(** Started with no selection, [load_country_list] leaves a valid one,
    whether the call fails or not. *)
Lemma load_country_list_valid ds w :
  selected_country (store w) = "" ->
  SelectedCountry_valid (store (snd (load_country_list ds w))).
Proof.
  intros Hsel. destruct (call_failure ds) as [e|] eqn:Hf.
  - destruct (load_country_list_failure ds w e Hf) as [log' ->].
    by left.
  - rewrite (load_country_list_success ds w Hf).
    unfold SelectedCountry_valid, default_selection. simpl.
    destruct (decide ("USA" ∈ distinct_countries (cities ds))); [by right|].
    destruct (distinct_countries (cities ds)) as [|first rest].
    + by left.
    + right. apply list_elem_of_here.
Qed.

(** Only [load_country_list] writes the country list: the two other
    effects leave it as it is, whatever the data source does. *)
Lemma update_country_stats_keeps_list ds w :
  all_countries (store (snd (update_country_stats ds w)))
    = all_countries (store w).
Proof.
  unfold update_country_stats. unfold_eff.
  case_decide; [reflexivity|].
  destruct (install_error ds); simpl; [reflexivity|].
  destruct (load_error ds); simpl; [reflexivity|].
  destruct (sql_max_population ds _) as [[m|]|e]; simpl;
    try destruct (m =? 0); reflexivity.
Qed.

Lemma load_filtered_data_keeps_list ds w :
  all_countries (store (snd (load_filtered_data ds w)))
    = all_countries (store w).
Proof.
  unfold load_filtered_data. unfold_eff.
  destruct (population_range (store w)) as [lo hi].
  case_decide; [reflexivity|]. simpl.
  destruct (install_error ds); simpl; [reflexivity|].
  destruct (load_error ds); simpl; [reflexivity|].
  destruct (sql_filtered_cities ds _ _ _) as [df|e]; reflexivity.
Qed.

(** ** 10. Properties of the pipeline *)

(** For every non-empty selected country [c] whose interpolated
    literal is complete and denotes [v], [load_filtered_data] publishes a
    result set for [v]: records of country [v], populations within the
    range, by non-increasing population, at most 500 of them.  A name
    without apostrophe denotes itself, so the rows are then those of the
    selected country. *)
Lemma load_filtered_data_result_set ds w c v lo hi :
  selected_country (store w) = c -> c <> "" ->
  population_range (store w) = (lo, hi) ->
  scan_literal c = Closed v ->
  install_error ds = None -> load_error ds = None ->
  (apostrophe_free c = true -> v = c) /\
  exists w', load_filtered_data ds w = (Returned tt, w') /\
    ResultSet_for v lo hi (data_df (store w')).
Proof.
  intros Hc Hne Hr Hv Hi Hl. split.
  - intros Hfree. apply scan_literal_apostrophe_free in Hfree. congruence.
  - destruct (load_filtered_data_publishes ds w c v lo hi)
      as (w' & Hrun & Hrs & _); eauto.
Qed.

(** The scenario of the sample data: the USA with range 0 to 8,000,000
    give Los Angeles alone. *)
Example sample_scenario :
  load_filtered_data (healthy sample_cities)
    (user_selects "USA" (0, 8000000) sample_loaded)
  = (Returned tt,
     snd (load_filtered_data (healthy sample_cities)
            (user_selects "USA" (0, 8000000) sample_loaded))) /\
  data_df (store (snd (load_filtered_data (healthy sample_cities)
                         (user_selects "USA" (0, 8000000) sample_loaded))))
  = [example_city "LA" "USA" 3980000].
Proof. split; by vm_compute. Qed.

(** C1: a country list may hold a name written with a doubled
    apostrophe.  Selected by default, it is pasted into the statement,
    where it spells another country: the effect returns, and the rows it
    publishes are that other country's, not those of the selected
    country. *)
Theorem load_filtered_data_escaped_name :
  all_countries (store escaped_world) = ["O''Neil"; "O'Neil"] /\
  selected_country (store escaped_world) = "O''Neil" /\
  population_range (store escaped_world) = (0, 1000000) /\
  fst (load_filtered_data (healthy escaped_cities) escaped_world) = Returned tt /\
  data_df (store (snd (load_filtered_data (healthy escaped_cities)
                         escaped_world)))
    = [example_city "Dublin" "O'Neil" 5] /\
  ~ ResultSet_for "O''Neil" 0 1000000
      (data_df (store (snd (load_filtered_data (healthy escaped_cities)
                              escaped_world)))).
Proof.
  split; [by vm_compute|]. split; [by vm_compute|].
  split; [reflexivity|]. split; [reflexivity|]. split; [by vm_compute|].
  intros [Hcountry _ _ _]. vm_compute in Hcountry.
  inversion Hcountry as [|r rest Hr Hrest]. discriminate Hr.
Qed.

(** C2, as stated, fails: a listed country whose largest population is
    zero keeps the bounds of before. *)
Lemma update_country_stats_zero_max_counterexample :
  "Nowhere" ∈ all_countries (store ghost_world) /\
  max_population ghost_cities "Nowhere" = Some 0 /\
  fst (update_country_stats (healthy ghost_cities)
         (snd (selected_country_set "Nowhere" ghost_world))) = Returned tt /\
  ~ bounds_refreshed_to (healthy ghost_cities) "Nowhere"
      (snd (update_country_stats (healthy ghost_cities)
              (snd (selected_country_set "Nowhere" ghost_world)))).
Proof.
  split; [vm_compute; apply list_elem_of_here|].
  split; [reflexivity|]. split; [reflexivity|].
  intros (m & Hm & _ & Hmax & _).
  vm_compute in Hm, Hmax. congruence.
Qed.

(** C2 (amended): for every non-empty country [c] without apostrophe of
    a country list loaded from the data, over rows of non-negative
    population, when no step of the call fails and the largest
    population of [c] is not zero: after [c] is selected and
    [update_country_stats] has run, the maximum held is the largest
    population of [c], which is non-negative, and the range is from 0 to
    it. *)
Theorem update_country_stats_refreshes_bounds ds w c :
  all_countries (store w) = distinct_countries (cities ds) ->
  c ∈ all_countries (store w) ->
  c <> "" -> apostrophe_free c = true ->
  Forall (fun r => 0 <= population r) (cities ds) ->
  call_failure ds = None ->
  max_population (cities ds) c <> Some 0 ->
  exists w',
    update_country_stats ds (snd (selected_country_set c w)) = (Returned tt, w') /\
    bounds_refreshed_to ds c w'.
Proof.
  intros Hlist Hin Hne Hfree Hpos (Hi & Hl & Hs)%call_failure_None Hnz.
  rewrite Hlist in Hin. apply elem_of_distinct_countries in Hin.
  destruct (max_population_is_Some _ _ Hin) as [m Hm].
  assert (Hm0 : m <> 0) by congruence.
  unfold update_country_stats, sql_max_population, bounds_refreshed_to.
  unfold_eff. simpl. rewrite Hi, Hl, Hs. simpl.
  destruct (decide (c = "")) as [|_]; [done|]. simpl.
  rewrite (scan_literal_apostrophe_free c Hfree), Hm. simpl.
  destruct (Z.eqb_spec m 0) as [|_]; [done|]. simpl.
  eexists. split; [reflexivity|]. simpl.
  exists m. repeat split; eauto using max_population_nonneg.
Qed.

Lemma update_country_stats_refreshes_bounds_witness :
  all_countries (store sample_loaded)
    = distinct_countries (cities (healthy sample_cities)) /\
  "France" ∈ all_countries (store sample_loaded) /\
  "France" <> "" /\ apostrophe_free "France" = true /\
  Forall (fun r => 0 <= population r) (cities (healthy sample_cities)) /\
  call_failure (healthy sample_cities) = None /\
  max_population (cities (healthy sample_cities)) "France" <> Some 0 /\
  exists w',
    update_country_stats (healthy sample_cities)
      (snd (selected_country_set "France" sample_loaded))
      = (Returned tt, w') /\
    bounds_refreshed_to (healthy sample_cities) "France" w'.
Proof.
  assert (Hin : "France" ∈ all_countries (store sample_loaded))
    by (vm_compute; apply list_elem_of_here).
  assert (Hpos : Forall (fun r => 0 <= population r)
                   (cities (healthy sample_cities)))
    by (repeat constructor; simpl; lia).
  repeat (split; [first [assumption | reflexivity | discriminate]|]).
  apply (update_country_stats_refreshes_bounds (healthy sample_cities)
           sample_loaded "France");
    first [assumption | reflexivity | discriminate].
Defined.

(** When the extension cannot be installed, [load_filtered_data] has
    already raised the loading flag, and leaves through the exception
    of [get_db_connection], which is outside its [try]. *)
Lemma load_filtered_data_install_raises ds w e :
  install_error ds = Some e -> selected_country (store w) <> "" ->
  exists w', load_filtered_data ds w = (Raised e, w') /\
    is_loading (store w') = true /\
    data_df (store w') = data_df (store w).
Proof.
  intros He Hne. unfold load_filtered_data. unfold_eff.
  destruct (population_range (store w)) as [lo hi].
  destruct (decide (selected_country (store w) = "")); [done|].
  simpl. rewrite He. simpl. by eexists.
Qed.

(** C3: with the network down, [load_filtered_data] leaves by an
    exception with the loading flag still set and the rows of the
    country shown before still published. *)
Theorem load_filtered_data_offline_stays_loading :
  selected_country (store usa_picked) = "USA" /\
  fst (load_filtered_data (offline sample_cities) usa_picked)
    = Raised "IO Error: Failed to download extension httpfs" /\
  is_loading (store (snd (load_filtered_data (offline sample_cities)
                            usa_picked))) = true /\
  data_df (store (snd (load_filtered_data (offline sample_cities)
                         usa_picked)))
    = [example_city "Paris" "France" 2148000].
Proof.
  split; [reflexivity|].
  destruct (load_filtered_data_install_raises (offline sample_cities)
              usa_picked _ eq_refl) as (w' & -> & Hload & Hdf);
    [discriminate|].
  simpl. rewrite Hload, Hdf. by vm_compute.
Qed.

(** What each effect does to the connection it opened when its
    statement raises: the two later effects close it in [finally], the
    first one does not. *)
Lemma update_country_stats_closes ds w :
  install_error ds = None -> load_error ds = None ->
  selected_country (store w) <> "" ->
  db_log (snd (update_country_stats ds w)) =
    (db_log w ++ [Connect (connections_made w); Extension (connections_made w);
                 Extension (connections_made w); Sql (connections_made w);
                 Close (connections_made w)])%list.
Proof.
  intros Hi Hl Hne. unfold update_country_stats. unfold_eff.
  destruct (decide (selected_country (store w) = "")); [done|].
  rewrite Hi, Hl. simpl.
  destruct (sql_max_population ds _) as [[m|]|e]; simpl;
    try destruct (m =? 0); simpl; by rewrite <- !app_assoc.
Qed.

Lemma load_filtered_data_closes ds w :
  install_error ds = None -> load_error ds = None ->
  selected_country (store w) <> "" ->
  db_log (snd (load_filtered_data ds w)) =
    (db_log w ++ [Connect (connections_made w); Extension (connections_made w);
                 Extension (connections_made w); Sql (connections_made w);
                 Close (connections_made w)])%list.
Proof.
  intros Hi Hl Hne. unfold load_filtered_data. unfold_eff.
  destruct (population_range (store w)) as [lo hi].
  destruct (decide (selected_country (store w) = "")); [done|].
  simpl. rewrite Hi, Hl. simpl.
  destruct (sql_filtered_cities ds _ _ _) as [df|e]; simpl;
    by rewrite <- !app_assoc.
Qed.

Lemma load_country_list_query_raises ds w e :
  install_error ds = None -> load_error ds = None -> sql_error ds = Some e ->
  db_log (snd (load_country_list ds w)) =
    (db_log w ++ [Connect (connections_made w); Extension (connections_made w);
                 Extension (connections_made w); Sql (connections_made w)])%list.
Proof.
  intros Hi Hl Hs. unfold load_country_list, sql_distinct_countries.
  unfold_eff. rewrite Hi, Hl, Hs. simpl. by rewrite <- !app_assoc.
Qed.

(** C4: when the file cannot be read, the connection that
    [load_country_list] opened is still open after the effect, while
    [update_country_stats] and [load_filtered_data] leave none open on
    the same failure. *)
Theorem load_country_list_leaves_connection_open :
  fst (load_country_list (unreadable sample_cities) initial_world)
    = Returned tt /\
  open_connections (snd (load_country_list (unreadable sample_cities)
                           initial_world)) = [0%nat] /\
  open_connections (snd (update_country_stats (unreadable sample_cities)
                           usa_picked)) = [] /\
  open_connections (snd (load_filtered_data (unreadable sample_cities)
                           usa_picked)) = [].
Proof. repeat split; by vm_compute. Qed.

(** C5, as stated, fails: a name that is neither empty nor in the list
    is stored by [selected_country.set], and the selection is no longer
    valid. *)
Lemma selected_country_set_unlisted_counterexample :
  SelectedCountry_valid (store sample_loaded) /\
  "Atlantis" <> "" /\
  ("Atlantis" ∉ all_countries (store sample_loaded)) /\
  selected_country (store (snd (selected_country_set "Atlantis" sample_loaded)))
    = "Atlantis" /\
  ~ SelectedCountry_valid
      (store (snd (selected_country_set "Atlantis" sample_loaded))).
Proof.
  assert (Hout : "Atlantis" ∉ ["France"; "USA"]).
  { rewrite !not_elem_of_cons. repeat split; try discriminate.
    apply not_elem_of_nil. }
  split; [right; vm_compute; apply list_elem_of_further, list_elem_of_here|].
  split; [discriminate|]. split; [exact Hout|]. split; [reflexivity|].
  intros [Hempty|Hin]; [discriminate Hempty|]. exact (Hout Hin).
Qed.

(** C5 (amended): [selected_country.set] checks nothing: any value,
    listed or not, becomes the selected country, and nothing else
    changes. *)
Theorem selected_country_set_stores_any (v : string) (w : World) :
  exists w', selected_country_set v w = (Returned tt, w') /\
    selected_country (store w') = v /\
    all_countries (store w') = all_countries (store w) /\
    population_range (store w') = population_range (store w) /\
    max_population_in_country (store w') = max_population_in_country (store w) /\
    data_df (store w') = data_df (store w) /\
    is_loading (store w') = is_loading (store w) /\
    stdout w' = stdout w /\ db_log w' = db_log w.
Proof. eexists. split; [reflexivity|]. by repeat split. Qed.

(** C6, as stated, fails on a host that lets the selection change
    while a query is in flight: the USA are picked, then France; the
    query for France answers first and the one for the USA last.  No
    run is left in flight, France is selected with its own range, and
    the rows published are those of the USA. *)
Lemma rapid_switch_publishes_stale_counterexample :
  selected_country
    (store (world (host_run (healthy sample_cities) idle_host rapid_switch)))
    = "France" /\
  population_range
    (store (world (host_run (healthy sample_cities) idle_host rapid_switch)))
    = (0, 2148000) /\
  in_flight (host_run (healthy sample_cities) idle_host rapid_switch) = ∅ /\
  data_df
    (store (world (host_run (healthy sample_cities) idle_host rapid_switch)))
    = filtered_cities sample_cities "USA" 0 8419000 /\
  ~ ResultSet_for "France" 0 2148000
      (data_df (store (world (host_run (healthy sample_cities) idle_host
                                rapid_switch)))).
Proof.
  split; [reflexivity|]. split; [reflexivity|].
  split; [by vm_compute|]. split; [by vm_compute|].
  intros [Hcountry _ _ _]. vm_compute in Hcountry.
  inversion Hcountry as [|r rest Hr _]. discriminate Hr.
Qed.

(** C6 (amended): [load_filtered_data] keeps no generation and drops
    nothing.  When its query has answered, whatever the store holds by
    then (another country may have been selected meanwhile), it
    publishes the answer for the country and range it was started with,
    or the empty dataset if the query raised, lowers the loading flag and
    leaves the selection as it is. *)
Theorem load_filtered_data_finish_publishes ds fr w :
  exists w', load_filtered_data_finish ds fr w = (Returned tt, w') /\
    data_df (store w') =
      match sql_filtered_cities ds (frame_country fr)
              (frame_pop_min fr) (frame_pop_max fr) with
      | Returned df => df
      | Raised _ => empty_DataFrame
      end /\
    is_loading (store w') = false /\
    selected_country (store w') = selected_country (store w).
Proof.
  rewrite load_filtered_data_finish_runs. eexists.
  split; [reflexivity|]. by repeat split.
Qed.

(** C7: after [load_country_list] succeeds, the selected country is
    "USA" if the loaded list holds it, otherwise the first element of
    the list if it has one, otherwise what it was. *)
Theorem load_country_list_default_selection ds w :
  call_failure ds = None ->
  exists w', load_country_list ds w = (Returned tt, w') /\
    all_countries (store w') = distinct_countries (cities ds) /\
    ("USA" ∈ all_countries (store w') -> selected_country (store w') = "USA") /\
    ("USA" ∉ all_countries (store w') ->
       forall first rest, all_countries (store w') = first :: rest ->
       selected_country (store w') = first) /\
    (all_countries (store w') = [] ->
       selected_country (store w') = selected_country (store w)).
Proof.
  intros Hok. rewrite (load_country_list_success ds w Hok).
  eexists. split; [reflexivity|]. simpl. unfold default_selection.
  split; [reflexivity|].
  case_decide as Husa.
  - split; [done|]. split; [done|].
    intros Hnil. rewrite Hnil in Husa. by apply elem_of_nil in Husa.
  - split; [done|]. split.
    + by intros _ first rest ->.
    + by intros ->.
Qed.

Lemma load_country_list_default_selection_witness :
  call_failure (healthy sample_cities) = None /\
  exists w', load_country_list (healthy sample_cities) initial_world
             = (Returned tt, w') /\
    all_countries (store w') = distinct_countries (cities (healthy sample_cities)) /\
    ("USA" ∈ all_countries (store w') -> selected_country (store w') = "USA") /\
    ("USA" ∉ all_countries (store w') ->
       forall first rest, all_countries (store w') = first :: rest ->
       selected_country (store w') = first) /\
    (all_countries (store w') = [] ->
       selected_country (store w') = selected_country (store initial_world)).
Proof.
  split; [reflexivity|].
  apply (load_country_list_default_selection (healthy sample_cities)
           initial_world).
  reflexivity.
Defined.

(** C8, as stated, fails: the handler of [load_country_list] only
    prints.  When a list was loaded before and a later call fails, the
    effect returns and the list that consumers read is still the one
    loaded before, not the empty list. *)
Lemma load_country_list_failure_keeps_list_counterexample :
  all_countries (store sample_loaded) = ["France"; "USA"] /\
  call_failure (unreadable sample_cities) = Some "IO Error: Cannot open file" /\
  fst (load_country_list (unreadable sample_cities) sample_loaded)
    = Returned tt /\
  all_countries (store (snd (load_country_list (unreadable sample_cities)
                               sample_loaded))) = ["France"; "USA"] /\
  all_countries (store (snd (load_country_list (unreadable sample_cities)
                               sample_loaded))) <> [].
Proof.
  assert (Hlist : all_countries (store (snd (load_country_list
                    (unreadable sample_cities) sample_loaded)))
                  = ["France"; "USA"]) by (by vm_compute).
  split; [by vm_compute|]. split; [reflexivity|]. split; [reflexivity|].
  split; [exact Hlist|]. rewrite Hlist. discriminate.
Qed.

(** C8 (amended): if the call of [load_country_list] fails, at
    whichever step, the effect returns without raising, the failure is
    printed, and no reactive variable is written: the country list that
    consumers read is the one held before the call (the empty list when
    the call is the first one, at start). *)
Theorem load_country_list_failure_is_logged ds w e :
  call_failure ds = Some e ->
  exists w', load_country_list ds w = (Returned tt, w') /\
    store w' = store w /\
    all_countries (store w') = all_countries (store w) /\
    stdout w' = (stdout w ++ ["Loading country list...";
                              "Error loading countries: " +:+ e])%list.
Proof.
  intros Hfail.
  destruct (load_country_list_failure ds w e Hfail) as [log' ->].
  eexists. split; [reflexivity|]. by repeat split.
Qed.

Lemma load_country_list_failure_is_logged_witness :
  call_failure (unreadable sample_cities) = Some "IO Error: Cannot open file" /\
  exists w', load_country_list (unreadable sample_cities) initial_world
             = (Returned tt, w') /\
    store w' = store initial_world /\
    all_countries (store w') = all_countries (store initial_world) /\
    stdout w' = (stdout initial_world ++
                   ["Loading country list...";
                    "Error loading countries: " +:+ "IO Error: Cannot open file"])%list.
Proof.
  split; [reflexivity|].
  apply (load_country_list_failure_is_logged (unreadable sample_cities)
           initial_world "IO Error: Cannot open file"); reflexivity.
Defined.

(** C9: while the selected country is the empty string,
    [update_country_stats] and [load_filtered_data] return at once: no
    connection is made, no statement sent, nothing printed and no
    reactive variable written; the world is the same after as before. *)
Theorem effects_skip_empty_selection ds w :
  selected_country (store w) = "" ->
  update_country_stats ds w = (Returned tt, w) /\
  load_filtered_data ds w = (Returned tt, w).
Proof.
  intros Hsel. unfold update_country_stats, load_filtered_data.
  unfold mbind, Eff_bind, read. rewrite Hsel.
  destruct (population_range (store w)). by split.
Qed.

Lemma effects_skip_empty_selection_witness :
  selected_country (store initial_world) = "" /\
  update_country_stats (healthy sample_cities) initial_world
    = (Returned tt, initial_world) /\
  load_filtered_data (healthy sample_cities) initial_world
    = (Returned tt, initial_world).
Proof.
  split; [reflexivity|].
  apply (effects_skip_empty_selection (healthy sample_cities) initial_world).
  reflexivity.
Defined.

(** C10: when the statement of [update_country_stats] answers NULL or
    the integer 0, the effect returns and every reactive variable,
    the maximum and the range among them, holds what it held before. *)
Theorem update_country_stats_null_or_zero ds w :
  install_error ds = None -> load_error ds = None ->
  sql_max_population ds (selected_country (store w)) = Returned None \/
  sql_max_population ds (selected_country (store w)) = Returned (Some 0) ->
  exists w', update_country_stats ds w = (Returned tt, w') /\
    store w' = store w.
Proof.
  intros Hi Hl Hanswer. unfold update_country_stats. unfold_eff.
  case_decide as Hsel; [by eexists|].
  rewrite Hi, Hl. simpl.
  destruct Hanswer as [-> | ->]; simpl; by eexists.
Qed.

Lemma update_country_stats_null_or_zero_witness :
  install_error (healthy ghost_cities) = None /\
  load_error (healthy ghost_cities) = None /\
  (sql_max_population (healthy ghost_cities)
     (selected_country (store ghost_world)) = Returned None \/
   sql_max_population (healthy ghost_cities)
     (selected_country (store ghost_world)) = Returned (Some 0)) /\
  exists w', update_country_stats (healthy ghost_cities) ghost_world
             = (Returned tt, w') /\
    store w' = store ghost_world.
Proof.
  assert (Hzero : sql_max_population (healthy ghost_cities)
                    (selected_country (store ghost_world)) = Returned (Some 0))
    by reflexivity.
  split; [reflexivity|]. split; [reflexivity|]. split; [by right|].
  apply (update_country_stats_null_or_zero (healthy ghost_cities) ghost_world);
    [reflexivity | reflexivity | by right].
Defined.

(** ** 11. Further properties of the effects *)

(** *** What each effect leaves behind *)

(** The world after [update_country_stats], when the connection is
    obtained and a country is selected. *)
Lemma update_country_stats_runs ds w :
  install_error ds = None -> load_error ds = None ->
  selected_country (store w) <> "" ->
  update_country_stats ds w =
    (Returned tt,
     {| store :=
          match sql_max_population ds (selected_country (store w)) with
          | Returned (Some m) =>
              if m =? 0 then store w
              else {| all_countries := all_countries (store w);
                      selected_country := selected_country (store w);
                      population_range := (0, m);
                      max_population_in_country := m;
                      data_df := data_df (store w);
                      is_loading := is_loading (store w) |}
          | _ => store w
          end;
        stdout :=
          match sql_max_population ds (selected_country (store w)) with
          | Raised e => stdout w ++ ["Error getting stats: " +:+ e]
          | _ => stdout w
          end;
        db_log := db_log w ++ [Connect (connections_made w);
                               Extension (connections_made w);
                               Extension (connections_made w);
                               Sql (connections_made w);
                               Close (connections_made w)] |}).
Proof.
  intros Hi Hl Hne. unfold update_country_stats. unfold_eff.
  case_decide; [done|]. rewrite Hi, Hl. simpl.
  destruct (sql_max_population ds _) as [[m|]|e]; simpl;
    try destruct (m =? 0); simpl; by rewrite <- !app_assoc.
Qed.

(** The world after [load_filtered_data], in the same case. *)
Lemma load_filtered_data_runs ds w lo hi :
  install_error ds = None -> load_error ds = None ->
  selected_country (store w) <> "" ->
  population_range (store w) = (lo, hi) ->
  load_filtered_data ds w =
    load_filtered_data_finish ds
      {| frame_country := selected_country (store w);
         frame_pop_min := lo; frame_pop_max := hi;
         frame_con := connections_made w |}
      {| store :=
           {| all_countries := all_countries (store w);
              selected_country := selected_country (store w);
              population_range := population_range (store w);
              max_population_in_country := max_population_in_country (store w);
              data_df := data_df (store w);
              is_loading := true |};
         stdout := stdout w ++ ["Querying: " +:+ selected_country (store w)
                                  +:+ ", Pop: " +:+ pretty lo +:+ "-"
                                  +:+ pretty hi];
         db_log := db_log w ++ [Connect (connections_made w);
                                Extension (connections_made w);
                                Extension (connections_made w)] |}.
Proof.
  intros Hi Hl Hne Hr. rewrite load_filtered_data_phases.
  unfold load_filtered_data_begin. unfold_eff. rewrite Hr.
  case_decide; [done|]. simpl. rewrite Hi, Hl. simpl.
  unfold connections_made. simpl. by rewrite <- !app_assoc, ?Hr.
Qed.

(** What [load_filtered_data] publishes when the connection is obtained. *)
Lemma load_filtered_data_answer ds w lo hi :
  install_error ds = None -> load_error ds = None ->
  selected_country (store w) <> "" ->
  population_range (store w) = (lo, hi) ->
  fst (load_filtered_data ds w) = Returned tt /\
  data_df (store (snd (load_filtered_data ds w))) =
    match sql_filtered_cities ds (selected_country (store w)) lo hi with
    | Returned df => df
    | Raised _ => empty_DataFrame
    end.
Proof.
  intros Hi Hl Hne Hr.
  rewrite (load_filtered_data_runs ds w lo hi Hi Hl Hne Hr).
  by rewrite load_filtered_data_finish_runs.
Qed.

(** With no country selected the two later effects do nothing. *)
Lemma update_country_stats_skips ds w :
  selected_country (store w) = "" -> update_country_stats ds w = (Returned tt, w).
Proof.
  intros Hsel. unfold update_country_stats, mbind, Eff_bind, read.
  by rewrite Hsel.
Qed.

Lemma load_filtered_data_skips ds w :
  selected_country (store w) = "" -> load_filtered_data ds w = (Returned tt, w).
Proof.
  intros Hsel. unfold load_filtered_data, mbind, Eff_bind, read.
  rewrite Hsel. by destruct (population_range (store w)).
Qed.

(** [update_country_stats] leaves by the exception of a failed
    connection set-up. *)
Lemma update_country_stats_setup_raises ds w e :
  install_error ds = Some e \/
    (install_error ds = None /\ load_error ds = Some e) ->
  selected_country (store w) <> "" ->
  exists w', update_country_stats ds w = (Raised e, w') /\
    store w' = store w /\ stdout w' = stdout w.
Proof.
  intros Hfail Hne. unfold update_country_stats. unfold_eff.
  case_decide; [done|].
  destruct Hfail as [-> | [-> ->]]; simpl; by eexists.
Qed.

(** *** Connections opened and closed *)

Lemma filter_iff_elem {A} (P1 P2 : A -> Prop)
    `{!forall x, Decision (P1 x), !forall x, Decision (P2 x)} (l : list A) :
  (forall x, x ∈ l -> P1 x <-> P2 x) -> filter P1 l = filter P2 l.
Proof.
  induction l as [|a l IH]; intros Hiff; [reflexivity|].
  assert (Ha : P1 a <-> P2 a) by (apply Hiff, list_elem_of_here).
  assert (Hl : filter P1 l = filter P2 l).
  { apply IH. intros x Hx. by apply Hiff, list_elem_of_further. }
  destruct (decide (P1 a)) as [H1|H1].
  - rewrite !filter_cons_True by tauto. by rewrite Hl.
  - rewrite !filter_cons_False by tauto. exact Hl.
Qed.

Lemma connections_made_app w w' evs :
  db_log w' = (db_log w ++ evs)%list ->
  connections_made w' =
    (connections_made w + length (filter (fun ev => is_Connect ev = true) evs))%nat.
Proof.
  intros Hlog. unfold connections_made.
  by rewrite Hlog, filter_app, length_app.
Qed.

(** A call that connects, sends its statement and closes adds no open
    connection. *)
Lemma open_connections_closed_call w w' :
  db_log w' = (db_log w ++ [Connect (connections_made w);
                            Extension (connections_made w);
                            Extension (connections_made w);
                            Sql (connections_made w);
                            Close (connections_made w)])%list ->
  open_connections w' = open_connections w.
Proof.
  intros Hlog. unfold open_connections.
  rewrite (connections_made_app w w' _ Hlog). simpl.
  rewrite Nat.add_1_r, seq_S, filter_app. simpl.
  rewrite filter_cons_False, filter_nil, app_nil_r.
  - apply filter_iff_elem. intros c [_ Hc]%elem_of_seq.
    rewrite Hlog, !elem_of_app. simpl in Hc.
    split; intros Hopen Hin; apply Hopen.
    + by left.
    + destruct Hin as [Hin|Hin]; [done|]. exfalso.
      repeat (apply elem_of_cons in Hin as [Hin|Hin]; [try discriminate|]).
      * injection Hin as ->. lia.
      * by apply elem_of_nil in Hin.
  - intros Hopen. apply Hopen. rewrite Hlog, elem_of_app. right.
    do 4 apply list_elem_of_further. apply list_elem_of_here.
Qed.

(** A call that connects and stops before its statement leaves that
    connection open. *)
Lemma open_connections_abandoned w w' exts :
  Close (connections_made w) ∉ db_log w ->
  exts = [] \/ exts = [Extension (connections_made w)] ->
  db_log w' = (db_log w ++ Connect (connections_made w) :: exts)%list ->
  open_connections w' = (open_connections w ++ [connections_made w])%list.
Proof.
  intros Hfresh Hexts Hlog.
  assert (Hclose : forall c, Close c ∉ Connect (connections_made w) :: exts).
  { intros c Hin. apply elem_of_cons in Hin as [Hin|Hin]; [discriminate|].
    destruct Hexts as [-> | ->]; [by apply elem_of_nil in Hin|].
    apply elem_of_cons in Hin as [Hin|Hin]; [discriminate|].
    by apply elem_of_nil in Hin. }
  unfold open_connections.
  rewrite (connections_made_app w w' _ Hlog).
  replace (length (filter (fun ev => is_Connect ev = true)
                     (Connect (connections_made w) :: exts))) with 1%nat
    by (destruct Hexts as [-> | ->]; reflexivity).
  rewrite Nat.add_1_r, seq_S, filter_app. simpl. f_equal.
  - apply filter_iff_elem. intros c _.
    rewrite Hlog, elem_of_app.
    split; intros Hopen Hin; apply Hopen; [by left|].
    destruct Hin as [Hin|Hin]; [done|]. by apply Hclose in Hin.
  - rewrite filter_cons_True, filter_nil; [reflexivity|].
    rewrite Hlog, elem_of_app. intros [Hin|Hin]; [done|].
    by apply Hclose in Hin.
Qed.

(** *** The country list *)

(** X1: the list that a successful [load_country_list] publishes is
    in ascending byte order, holds no name twice, and holds exactly the
    names that some row of the data carries as its country. *)
Theorem load_country_list_sorted_distinct ds w :
  call_failure ds = None ->
  StronglySorted String.le (all_countries (state_after (load_country_list ds) w)) /\
  NoDup (all_countries (state_after (load_country_list ds) w)) /\
  forall c, c ∈ all_countries (state_after (load_country_list ds) w) <->
            exists r, r ∈ cities ds /\ country r = c.
Proof.
  intros Hok. unfold state_after.
  rewrite (load_country_list_success ds w Hok). simpl.
  split; [|split].
  - unfold distinct_countries, order_by_country.
    apply StronglySorted_merge_sort; apply _.
  - unfold distinct_countries, order_by_country.
    rewrite merge_sort_Permutation. apply NoDup_remove_dups.
  - intros c. rewrite elem_of_distinct_countries, list_elem_of_fmap.
    split; intros (r & H1 & H2); exists r; by split.
Qed.

Lemma load_country_list_sorted_distinct_witness :
  call_failure (healthy sample_cities) = None /\
  StronglySorted String.le
    (all_countries (state_after (load_country_list (healthy sample_cities))
                      initial_world)) /\
  NoDup (all_countries (state_after (load_country_list (healthy sample_cities))
                          initial_world)) /\
  forall c, c ∈ all_countries (state_after (load_country_list
                                              (healthy sample_cities))
                                 initial_world) <->
            exists r, r ∈ cities (healthy sample_cities) /\ country r = c.
Proof.
  split; [reflexivity|].
  apply (load_country_list_sorted_distinct (healthy sample_cities)
           initial_world).
  reflexivity.
Defined.

(** X2: [load_country_list] never raises, whatever step of the call
    fails, and it never writes the range, the maximum, the dataset or the
    loading flag. *)
Theorem load_country_list_never_raises ds w :
  fst (load_country_list ds w) = Returned tt /\
  population_range (state_after (load_country_list ds) w)
    = population_range (store w) /\
  max_population_in_country (state_after (load_country_list ds) w)
    = max_population_in_country (store w) /\
  data_df (state_after (load_country_list ds) w) = data_df (store w) /\
  is_loading (state_after (load_country_list ds) w) = is_loading (store w).
Proof.
  unfold state_after. destruct (call_failure ds) as [e|] eqn:Hf.
  - destruct (load_country_list_failure ds w e Hf) as [log' ->].
    by repeat split.
  - rewrite (load_country_list_success ds w Hf). by repeat split.
Qed.

(** *** The bounds *)



(** X4: when the extension cannot be installed or loaded,
    [update_country_stats] with a country selected raises that error (its
    [try] does not cover [get_db_connection]); nothing is printed and no
    reactive variable is written. *)
Theorem update_country_stats_setup_failure ds w e :
  install_error ds = Some e \/
    (install_error ds = None /\ load_error ds = Some e) ->
  selected_country (store w) <> "" ->
  exists w', update_country_stats ds w = (Raised e, w') /\
    store w' = store w /\ stdout w' = stdout w.
Proof.
  intros Hfail Hne.
  destruct (update_country_stats_setup_raises ds w e Hfail Hne)
    as (w' & Hrun & Hstore & Hout).
  exists w'. by repeat split.
Qed.

Lemma update_country_stats_setup_failure_witness :
  (install_error (offline sample_cities)
     = Some "IO Error: Failed to download extension httpfs" \/
   (install_error (offline sample_cities) = None /\
    load_error (offline sample_cities)
      = Some "IO Error: Failed to download extension httpfs")) /\
  selected_country (store usa_picked) <> "" /\
  exists w', update_country_stats (offline sample_cities) usa_picked
             = (Raised "IO Error: Failed to download extension httpfs", w') /\
    store w' = store usa_picked /\ stdout w' = stdout usa_picked.
Proof.
  split; [by left|]. split; [discriminate|].
  apply (update_country_stats_setup_failure (offline sample_cities) usa_picked
           "IO Error: Failed to download extension httpfs");
    [by left | discriminate].
Defined.

(** X5: on every data source and in every state,
    [update_country_stats] writes the maximum and the range together or
    not at all: either both are as before, or the range goes from 0 to
    the maximum now held.  It never writes the country list, the
    selection, the dataset or the loading flag. *)
Theorem update_country_stats_all_or_nothing ds w :
  ((max_population_in_country (state_after (update_country_stats ds) w)
      = max_population_in_country (store w) /\
    population_range (state_after (update_country_stats ds) w)
      = population_range (store w)) \/
   population_range (state_after (update_country_stats ds) w)
     = (0, max_population_in_country (state_after (update_country_stats ds) w))) /\
  all_countries (state_after (update_country_stats ds) w)
    = all_countries (store w) /\
  selected_country (state_after (update_country_stats ds) w)
    = selected_country (store w) /\
  data_df (state_after (update_country_stats ds) w) = data_df (store w) /\
  is_loading (state_after (update_country_stats ds) w) = is_loading (store w).
Proof.
  unfold state_after, update_country_stats. unfold_eff.
  case_decide; [by repeat split; try left|].
  destruct (install_error ds); simpl; [by repeat split; try left|].
  destruct (load_error ds); simpl; [by repeat split; try left|].
  destruct (sql_max_population ds _) as [[m|]|e]; simpl;
    try (by repeat split; try left).
  destruct (m =? 0); simpl; [by repeat split; try left|].
  split; [by right|]. by repeat split.
Qed.

(** X6: over rows of non-negative population, when the literal of
    the selected country is complete, [update_country_stats] keeps the
    value of the range slider within the slider: if
    0 <= min <= max <= maximum held before, it holds after, whether the
    bounds were refreshed, kept, or the statement raised. *)
Theorem update_country_stats_keeps_slider_in_bounds ds w v :
  Forall (fun r => 0 <= population r) (cities ds) ->
  scan_literal (selected_country (store w)) = Closed v ->
  slider_in_bounds (Page_slider (store w)) ->
  slider_in_bounds (Page_slider (state_after (update_country_stats ds) w)).
Proof.
  intros Hpos Hv Hin. unfold state_after.
  destruct (decide (selected_country (store w) = "")) as [Hsel|Hsel].
  { by rewrite (update_country_stats_skips ds w Hsel). }
  destruct (install_error ds) as [e|] eqn:Hi.
  { destruct (update_country_stats_setup_raises ds w e) as (w' & -> & Hst & _);
      auto. simpl. by rewrite Hst. }
  destruct (load_error ds) as [e|] eqn:Hl.
  { destruct (update_country_stats_setup_raises ds w e) as (w' & -> & Hst & _);
      auto. simpl. by rewrite Hst. }
  rewrite (update_country_stats_runs ds w Hi Hl Hsel).
  unfold sql_max_population. rewrite Hv. simpl.
  destruct (sql_error ds); [exact Hin|].
  destruct (max_population (cities ds) v) as [m|] eqn:Hm; [|exact Hin].
  destruct (Z.eqb_spec m 0); [exact Hin|].
  pose proof (max_population_nonneg _ _ _ Hpos Hm).
  unfold slider_in_bounds. simpl. lia.
Qed.

Lemma update_country_stats_keeps_slider_in_bounds_witness :
  Forall (fun r => 0 <= population r) (cities (healthy sample_cities)) /\
  scan_literal (selected_country (store sample_loaded)) = Closed "USA" /\
  slider_in_bounds (Page_slider (store sample_loaded)) /\
  slider_in_bounds
    (Page_slider (state_after (update_country_stats (healthy sample_cities))
                    sample_loaded)).
Proof.
  assert (Hpos : Forall (fun r => 0 <= population r)
                   (cities (healthy sample_cities)))
    by (repeat constructor; simpl; lia).
  assert (Hin : slider_in_bounds (Page_slider (store sample_loaded)))
    by (unfold slider_in_bounds; simpl; lia).
  split; [exact Hpos|]. split; [reflexivity|]. split; [exact Hin|].
  apply (update_country_stats_keeps_slider_in_bounds (healthy sample_cities)
           sample_loaded "USA"); [exact Hpos | reflexivity | exact Hin].
Defined.

(** *** Connections *)

Lemma effects_close_their_connection_aux ds w :
  install_error ds = None -> load_error ds = None ->
  open_connections (snd (update_country_stats ds w)) = open_connections w /\
  open_connections (snd (load_filtered_data ds w)) = open_connections w.
Proof.
  intros Hi Hl.
  destruct (decide (selected_country (store w) = "")) as [Hsel|Hsel].
  - by rewrite update_country_stats_skips, load_filtered_data_skips.
  - split; apply open_connections_closed_call.
    + by apply update_country_stats_closes.
    + by apply load_filtered_data_closes.
Qed.

(** X7: when the connection is obtained, [update_country_stats] and
    [load_filtered_data] leave open exactly the connections that were
    open before, whether their statement answers or raises and whether a
    country is selected or not. *)
Theorem effects_close_their_connection ds w :
  install_error ds = None -> load_error ds = None ->
  open_connections (snd (update_country_stats ds w)) = open_connections w /\
  open_connections (snd (load_filtered_data ds w)) = open_connections w.
Proof. apply effects_close_their_connection_aux. Qed.

Lemma effects_close_their_connection_witness :
  install_error (unreadable sample_cities) = None /\
  load_error (unreadable sample_cities) = None /\
  open_connections (snd (update_country_stats (unreadable sample_cities)
                           usa_picked)) = open_connections usa_picked /\
  open_connections (snd (load_filtered_data (unreadable sample_cities)
                           usa_picked)) = open_connections usa_picked.
Proof.
  split; [reflexivity|]. split; [reflexivity|].
  apply (effects_close_their_connection (unreadable sample_cities) usa_picked);
    reflexivity.
Defined.

(** X8: when the extension cannot be installed or loaded,
    [get_db_connection] raises after [duckdb.connect] has succeeded: the
    connection it made is never closed and stays open beside those that
    were open before. *)
Theorem get_db_connection_failure_leaks ds w e :
  install_error ds = Some e \/
    (install_error ds = None /\ load_error ds = Some e) ->
  Close (connections_made w) ∉ db_log w ->
  exists w', get_db_connection ds w = (Raised e, w') /\
    store w' = store w /\
    open_connections w' = (open_connections w ++ [connections_made w])%list.
Proof.
  intros Hfail Hfresh. unfold_eff.
  destruct Hfail as [-> | [-> ->]]; simpl;
    (eexists; split; [reflexivity|]; split; [reflexivity|]).
  - by apply (open_connections_abandoned w _ []); [|left|].
  - apply (open_connections_abandoned w _ [Extension (connections_made w)]);
      [done | by right | simpl; by rewrite <- app_assoc].
Qed.

Lemma get_db_connection_failure_leaks_witness :
  (install_error (offline sample_cities)
     = Some "IO Error: Failed to download extension httpfs" \/
   (install_error (offline sample_cities) = None /\
    load_error (offline sample_cities)
      = Some "IO Error: Failed to download extension httpfs")) /\
  (Close (connections_made initial_world) ∉ db_log initial_world) /\
  exists w', get_db_connection (offline sample_cities) initial_world
             = (Raised "IO Error: Failed to download extension httpfs", w') /\
    store w' = store initial_world /\
    open_connections w'
      = (open_connections initial_world ++ [connections_made initial_world])%list.
Proof.
  split; [by left|]. split; [apply not_elem_of_nil|].
  apply (get_db_connection_failure_leaks (offline sample_cities) initial_world
           "IO Error: Failed to download extension httpfs");
    [by left | apply not_elem_of_nil].
Defined.

(** *** The main query *)

Lemma load_filtered_data_frame ds w :
  all_countries (state_after (load_filtered_data ds) w)
    = all_countries (store w) /\
  selected_country (state_after (load_filtered_data ds) w)
    = selected_country (store w) /\
  population_range (state_after (load_filtered_data ds) w)
    = population_range (store w) /\
  max_population_in_country (state_after (load_filtered_data ds) w)
    = max_population_in_country (store w).
Proof.
  unfold state_after, load_filtered_data. unfold_eff.
  destruct (population_range (store w)) as [lo hi] eqn:Hr.
  case_decide; [done|]. simpl.
  destruct (install_error ds); simpl; [done|].
  destruct (load_error ds); simpl; [done|].
  by destruct (sql_filtered_cities ds _ lo hi).
Qed.

(** X9: on every data source and in every state,
    [load_filtered_data] writes only the dataset and the loading flag
    (never the country list, the selection, the range or the maximum,
    so it never changes what it depends on), and running it a second time
    on the same data source changes no reactive variable. *)
Theorem load_filtered_data_writes_only_result ds w :
  all_countries (state_after (load_filtered_data ds) w)
    = all_countries (store w) /\
  selected_country (state_after (load_filtered_data ds) w)
    = selected_country (store w) /\
  population_range (state_after (load_filtered_data ds) w)
    = population_range (store w) /\
  max_population_in_country (state_after (load_filtered_data ds) w)
    = max_population_in_country (store w) /\
  state_after (load_filtered_data ds) (snd (load_filtered_data ds w))
    = state_after (load_filtered_data ds) w.
Proof.
  unfold state_after.
  destruct (decide (selected_country (store w) = "")) as [Hsel|Hsel].
  { rewrite (load_filtered_data_skips ds w Hsel). simpl.
    by rewrite (load_filtered_data_skips ds w Hsel). }
  unfold load_filtered_data. unfold_eff.
  destruct (population_range (store w)) as [lo hi] eqn:Hr.
  case_decide; [done|]. simpl.
  destruct (install_error ds) as [e|] eqn:Hi; simpl.
  { rewrite Hr. by case_decide. }
  destruct (load_error ds) as [e|] eqn:Hl; simpl.
  { rewrite Hr. by case_decide. }
  destruct (sql_filtered_cities ds _ lo hi) as [df|e] eqn:Ha; simpl;
    rewrite Hr; (case_decide; [done|]); simpl; by rewrite Ha.
Qed.

(** What [load_filtered_data] leaves when its query is answered. *)
Lemma load_filtered_data_rows ds w v lo hi :
  query_answered ds w v lo hi ->
  fst (load_filtered_data ds w) = Returned tt /\
  data_df (state_after (load_filtered_data ds) w)
    = filtered_cities (cities ds) v lo hi /\
  is_loading (state_after (load_filtered_data ds) w) = false.
Proof.
  intros ((Hi & Hl & Hs)%call_failure_None & Hne & Hv & Hr).
  unfold state_after.
  rewrite (load_filtered_data_runs ds w lo hi Hi Hl Hne Hr).
  rewrite load_filtered_data_finish_runs. simpl.
  unfold sql_filtered_cities. by rewrite Hs, Hv.
Qed.

Section top_rows.

Variables (rows : list CityRecord) (v : string) (lo hi : Z).

Lemma elem_of_matching_cities r :
  r ∈ matching_cities rows v lo hi <->
  r ∈ rows /\ country r = v /\ lo <= population r <= hi.
Proof.
  unfold matching_cities, where_country, between.
  rewrite !list_elem_of_filter. tauto.
Qed.

Lemma filtered_cities_sorted_matching :
  filtered_cities rows v lo hi
    = take LIMIT (order_by_population_desc (matching_cities rows v lo hi)).
Proof. reflexivity. Qed.

Lemma order_by_population_desc_length l :
  length (order_by_population_desc l) = length l.
Proof.
  unfold order_by_population_desc.
  apply Permutation_length, merge_sort_Permutation.
Qed.

Lemma filtered_cities_all :
  (length (matching_cities rows v lo hi) <= 500)%nat ->
  filtered_cities rows v lo hi ≡ₚ matching_cities rows v lo hi.
Proof.
  intros Hlen. rewrite filtered_cities_sorted_matching, take_ge.
  - apply merge_sort_Permutation.
  - by rewrite order_by_population_desc_length.
Qed.

Lemma filtered_cities_top r :
  r ∈ matching_cities rows v lo hi ->
  r ∉ filtered_cities rows v lo hi ->
  length (filtered_cities rows v lo hi) = 500%nat /\
  forall x, x ∈ filtered_cities rows v lo hi -> population r <= population x.
Proof.
  rewrite filtered_cities_sorted_matching.
  set (sorted := order_by_population_desc (matching_cities rows v lo hi)).
  intros Hr Hout.
  assert (Hsorted : StronglySorted population_desc
                      (take LIMIT sorted ++ drop LIMIT sorted)%list).
  { rewrite take_drop. apply order_by_population_desc_sorted. }
  assert (Hdrop : r ∈ drop LIMIT sorted).
  { assert (Hin : r ∈ (take LIMIT sorted ++ drop LIMIT sorted)%list).
    { rewrite take_drop. unfold sorted, order_by_population_desc.
      by rewrite merge_sort_Permutation. }
    apply elem_of_app in Hin as [Hin|Hin]; [by destruct Hout|exact Hin]. }
  split.
  - apply length_take_le.
    destruct (decide (LIMIT <= length sorted)%nat) as [|Hshort]; [done|].
    rewrite drop_ge in Hdrop by lia. by apply elem_of_nil in Hdrop.
  - intros x Hx.
    exact (StronglySorted_app_1_elem_of _ _ _ x r Hsorted Hx Hdrop).
Qed.

Lemma filtered_cities_nothing :
  hi < lo \/ (forall r, r ∈ rows -> country r <> v) ->
  filtered_cities rows v lo hi = [].
Proof.
  intros Hnone.
  assert (Hempty : matching_cities rows v lo hi = []).
  { apply elem_of_nil_inv. intros r (Hr & Hc & Hp)%elem_of_matching_cities.
    destruct Hnone as [Hrange|Hcountry]; [lia|by apply (Hcountry r)]. }
  rewrite filtered_cities_sorted_matching, Hempty. reflexivity.
Qed.

End top_rows.

Section literal_shape.

Lemma scan_literal_length_bound (n : nat) :
  forall c v, (String.length c <= n)%nat -> scan_literal c = Closed v ->
    (String.length v <= String.length c)%nat.
Proof.
  induction n as [|n IH]; intros [|a rest] v Hn; simpl in *;
    try (intros [= <-]; simpl; lia); try lia.
  destruct (Ascii.eqb a apostrophe).
  - destruct rest as [|b rest']; [discriminate|].
    destruct (Ascii.eqb b apostrophe); [|discriminate].
    destruct (scan_literal rest') as [v'|] eqn:Hscan; [|discriminate].
    simpl in *. intros [= <-]. simpl.
    assert (String.length v' <= String.length rest')%nat
      by (apply (IH rest' v'); [lia|exact Hscan]).
    lia.
  - destruct (scan_literal rest) as [v'|] eqn:Hscan; [|discriminate].
    simpl. intros [= <-]. simpl.
    assert (String.length v' <= String.length rest)%nat
      by (apply (IH rest v'); [lia|exact Hscan]).
    lia.
Qed.

(** Only a name without apostrophe is the value of its own literal. *)
Lemma scan_literal_fixed (c : string) :
  scan_literal c = Closed c -> apostrophe_free c = true.
Proof.
  induction c as [|a rest IH]; simpl; [reflexivity|].
  destruct (Ascii.eqb a apostrophe).
  - destruct rest as [|b rest']; [discriminate|].
    destruct (Ascii.eqb b apostrophe); [|discriminate].
    destruct (scan_literal rest') as [v'|] eqn:Hscan; [|discriminate].
    simpl. intros [= _ Hv].
    pose proof (scan_literal_length_bound _ rest' v' (Nat.le_refl _) Hscan)
      as Hlen.
    rewrite Hv in Hlen. simpl in Hlen. lia.
  - destruct (scan_literal rest) as [v'|] eqn:Hscan; [|discriminate].
    simpl. intros [= ->]. by apply IH.
Qed.

End literal_shape.

(** A selected country without apostrophe is the value of its own
    literal: the main query is then sent for that very name. *)
Lemma query_answered_own ds w lo hi :
  call_failure ds = None ->
  selected_country (store w) <> "" ->
  apostrophe_free (selected_country (store w)) = true ->
  population_range (store w) = (lo, hi) ->
  query_answered ds w (selected_country (store w)) lo hi.
Proof.
  intros Hok Hne Hfree Hr. repeat split; try done.
  by apply scan_literal_apostrophe_free.
Qed.

(** X10: when no step of the call fails, the selected country is a
    non-empty name without apostrophe, and at most 500 rows of the data
    are of the selected country and within the range,
    [load_filtered_data] publishes each of these rows, as often as the
    data holds it, and nothing else. *)
Theorem load_filtered_data_shows_every_match ds w lo hi :
  call_failure ds = None ->
  selected_country (store w) <> "" ->
  apostrophe_free (selected_country (store w)) = true ->
  population_range (store w) = (lo, hi) ->
  (length (matching_cities (cities ds) (selected_country (store w)) lo hi)
     <= 500)%nat ->
  data_df (state_after (load_filtered_data ds) w)
    ≡ₚ matching_cities (cities ds) (selected_country (store w)) lo hi.
Proof.
  intros Hok Hne Hfree Hr Hlen.
  destruct (load_filtered_data_rows ds w _ lo hi
              (query_answered_own ds w lo hi Hok Hne Hfree Hr))
    as (_ & -> & _).
  by apply filtered_cities_all.
Qed.

Lemma load_filtered_data_shows_every_match_witness :
  call_failure (healthy sample_cities) = None /\
  selected_country (store (user_selects "USA" (0, 8000000) sample_loaded))
    <> "" /\
  apostrophe_free
    (selected_country (store (user_selects "USA" (0, 8000000) sample_loaded)))
    = true /\
  population_range (store (user_selects "USA" (0, 8000000) sample_loaded))
    = (0, 8000000) /\
  (length (matching_cities (cities (healthy sample_cities))
             (selected_country
                (store (user_selects "USA" (0, 8000000)%Z sample_loaded)))
             0 8000000) <= 500)%nat /\
  data_df (state_after (load_filtered_data (healthy sample_cities))
             (user_selects "USA" (0, 8000000) sample_loaded))
    ≡ₚ matching_cities (cities (healthy sample_cities))
         (selected_country
            (store (user_selects "USA" (0, 8000000) sample_loaded)))
         0 8000000.
Proof.
  assert (Hlen : (length (matching_cities (cities (healthy sample_cities))
                            (selected_country
                               (store (user_selects "USA" (0, 8000000)%Z
                                         sample_loaded)))
                            0 8000000) <= 500)%nat)
    by (vm_compute; lia).
  split; [reflexivity|]. split; [discriminate|]. split; [reflexivity|].
  split; [reflexivity|]. split; [exact Hlen|].
  apply (load_filtered_data_shows_every_match (healthy sample_cities)
           (user_selects "USA" (0, 8000000) sample_loaded) 0 8000000);
    first [exact Hlen | reflexivity | discriminate].
Defined.

(** X11: when no step of the call fails and the selected country
    is a non-empty name without apostrophe, a row of the selected
    country and within the range is left out of the dataset that
    [load_filtered_data] publishes only if the dataset is full (500
    rows) and every published row has a population at least as large. *)
Theorem load_filtered_data_keeps_largest ds w lo hi r :
  call_failure ds = None ->
  selected_country (store w) <> "" ->
  apostrophe_free (selected_country (store w)) = true ->
  population_range (store w) = (lo, hi) ->
  r ∈ cities ds -> country r = selected_country (store w) ->
  lo <= population r <= hi ->
  r ∉ data_df (state_after (load_filtered_data ds) w) ->
  length (data_df (state_after (load_filtered_data ds) w)) = 500%nat /\
  forall x, x ∈ data_df (state_after (load_filtered_data ds) w) ->
            population r <= population x.
Proof.
  intros Hok Hne Hfree Hr Hin Hc Hp.
  destruct (load_filtered_data_rows ds w _ lo hi
              (query_answered_own ds w lo hi Hok Hne Hfree Hr))
    as (_ & -> & _).
  intros Hout. apply filtered_cities_top; [|exact Hout].
  by apply elem_of_matching_cities.
Qed.

Lemma load_filtered_data_keeps_largest_witness :
  call_failure (healthy crowded_cities) = None /\
  selected_country (store crowded_world) <> "" /\
  apostrophe_free (selected_country (store crowded_world)) = true /\
  population_range (store crowded_world) = (0, 1000) /\
  example_city "Town" "Crowded" 0 ∈ cities (healthy crowded_cities) /\
  country (example_city "Town" "Crowded" 0)
    = selected_country (store crowded_world) /\
  0 <= population (example_city "Town" "Crowded" 0) <= 1000 /\
  (example_city "Town" "Crowded" 0
     ∉ data_df (state_after (load_filtered_data (healthy crowded_cities))
                  crowded_world)) /\
  length (data_df (state_after (load_filtered_data (healthy crowded_cities))
                     crowded_world)) = 500%nat /\
  forall x, x ∈ data_df (state_after (load_filtered_data (healthy crowded_cities))
                           crowded_world) ->
            population (example_city "Town" "Crowded" 0) <= population x.
Proof.
  assert (Hr : example_city "Town" "Crowded" 0 ∈ cities (healthy crowded_cities))
    by apply list_elem_of_here.
  assert (Hp : 0 <= population (example_city "Town" "Crowded" 0) <= 1000)
    by (simpl; lia).
  assert (Hout : example_city "Town" "Crowded" 0
                   ∉ data_df (state_after (load_filtered_data
                                             (healthy crowded_cities))
                                crowded_world))
    by (apply (bool_decide_unpack _); vm_compute; exact I).
  split; [reflexivity|]. split; [discriminate|]. split; [reflexivity|].
  split; [reflexivity|]. split; [exact Hr|]. split; [reflexivity|].
  split; [exact Hp|]. split; [exact Hout|].
  apply (load_filtered_data_keeps_largest (healthy crowded_cities)
           crowded_world 0 1000 (example_city "Town" "Crowded" 0));
    first [exact Hr | exact Hp | exact Hout | reflexivity | discriminate].
Defined.

(** X12: when no step of the call fails, the selected country is a
    non-empty name without apostrophe, and no row can match, the range
    being empty (max below min) or the data holding no row of the
    selected country, [load_filtered_data] returns, publishes the empty
    dataset and lowers the loading flag: no match is not a failure. *)
Theorem load_filtered_data_no_match_is_empty ds w lo hi :
  call_failure ds = None ->
  selected_country (store w) <> "" ->
  apostrophe_free (selected_country (store w)) = true ->
  population_range (store w) = (lo, hi) ->
  hi < lo \/
    (forall r, r ∈ cities ds -> country r <> selected_country (store w)) ->
  fst (load_filtered_data ds w) = Returned tt /\
  data_df (state_after (load_filtered_data ds) w) = empty_DataFrame /\
  is_loading (state_after (load_filtered_data ds) w) = false.
Proof.
  intros Hok Hne Hfree Hr Hnone.
  destruct (load_filtered_data_rows ds w _ lo hi
              (query_answered_own ds w lo hi Hok Hne Hfree Hr))
    as (Hret & -> & Hload).
  split; [exact Hret|]. split; [|exact Hload].
  by apply filtered_cities_nothing.
Qed.

Lemma load_filtered_data_no_match_is_empty_witness :
  call_failure (healthy sample_cities) = None /\
  selected_country (store (user_selects "USA" (9000000, 10) sample_loaded))
    <> "" /\
  apostrophe_free
    (selected_country (store (user_selects "USA" (9000000, 10) sample_loaded)))
    = true /\
  population_range (store (user_selects "USA" (9000000, 10) sample_loaded))
    = (9000000, 10) /\
  (10 < 9000000 \/
   (forall r, r ∈ cities (healthy sample_cities) ->
      country r <> selected_country
                     (store (user_selects "USA" (9000000, 10) sample_loaded)))) /\
  fst (load_filtered_data (healthy sample_cities)
         (user_selects "USA" (9000000, 10) sample_loaded)) = Returned tt /\
  data_df (state_after (load_filtered_data (healthy sample_cities))
             (user_selects "USA" (9000000, 10) sample_loaded))
    = empty_DataFrame /\
  is_loading (state_after (load_filtered_data (healthy sample_cities))
                (user_selects "USA" (9000000, 10) sample_loaded)) = false.
Proof.
  split; [reflexivity|]. split; [discriminate|]. split; [reflexivity|].
  split; [reflexivity|]. split; [left; lia|].
  apply (load_filtered_data_no_match_is_empty (healthy sample_cities)
           (user_selects "USA" (9000000, 10) sample_loaded) 9000000 10);
    first [reflexivity | discriminate | left; lia].
Defined.

(** X13: when the selected country holds an apostrophe and its
    interpolated literal is all the same complete, the literal denotes
    another name: none of the rows that [load_filtered_data] publishes is
    a row of the selected country. *)
Theorem load_filtered_data_apostrophe_never_own_rows ds w v lo hi :
  query_answered ds w v lo hi ->
  apostrophe_free (selected_country (store w)) = false ->
  Forall (fun r => country r <> selected_country (store w))
    (data_df (state_after (load_filtered_data ds) w)).
Proof.
  intros Hq Hap.
  destruct (load_filtered_data_rows ds w v lo hi Hq) as (_ & -> & _).
  destruct Hq as (_ & _ & Hv & _).
  assert (Hne : v <> selected_country (store w)).
  { intros Heq. rewrite Heq in Hv. apply scan_literal_fixed in Hv.
    congruence. }
  eapply Forall_impl; [apply (rs_country _ _ _ _ (filtered_cities_ResultSet
                                (cities ds) v lo hi))|].
  simpl. intros r ->. exact Hne.
Qed.

Lemma load_filtered_data_apostrophe_never_own_rows_witness :
  query_answered (healthy escaped_cities) escaped_world "O'Neil" 0 1000000 /\
  apostrophe_free (selected_country (store escaped_world)) = false /\
  Forall (fun r => country r <> selected_country (store escaped_world))
    (data_df (state_after (load_filtered_data (healthy escaped_cities))
                escaped_world)).
Proof.
  assert (Hq : query_answered (healthy escaped_cities) escaped_world
                 "O'Neil" 0 1000000)
    by (repeat split; first [reflexivity | discriminate]).
  split; [exact Hq|]. split; [reflexivity|].
  exact (load_filtered_data_apostrophe_never_own_rows (healthy escaped_cities)
           escaped_world "O'Neil" 0 1000000 Hq eq_refl).
Defined.

(** *** Refreshing the bounds, then loading *)

Lemma filter_all {A} (P : A -> Prop) `{!forall x, Decision (P x)} (l : list A) :
  Forall P l -> filter P l = l.
Proof.
  induction 1 as [|x l Hx Hl IH]; [reflexivity|].
  by rewrite filter_cons_True, IH.
Qed.

(** Between 0 and the largest population of a country lie all its
    rows, when no population is negative. *)
Lemma matching_cities_full_range rows c m :
  Forall (fun r => 0 <= population r) rows ->
  max_population rows c = Some m ->
  matching_cities rows c 0 m = where_country c rows.
Proof.
  intros Hpos Hm. unfold matching_cities. apply filter_all.
  apply sql_MAX_elem in Hm as [_ Hmax].
  rewrite Forall_forall in Hpos. rewrite Forall_forall in Hmax.
  apply Forall_forall. intros r Hr. unfold between. split.
  - apply Hpos. by apply list_elem_of_filter in Hr as [_ Hr].
  - apply Hmax. by apply list_elem_of_fmap_2.
Qed.

(** X14: [update_country_stats] followed by [load_filtered_data],
    with a country [c] selected that is a non-empty name without
    apostrophe and whose largest population [m] is not zero, over rows
    of non-negative population and a data source on which no step fails:
    both return; the maximum is [m] and the range from 0 to [m]; the
    loading flag is down and no connection was left open; the dataset
    published holds only rows of [c], by non-increasing population, at
    most 500 of them; it holds every row of [c] when there are at most
    500, and otherwise a row of [c] is left out only if the dataset is
    full and every published row has a population at least as large. *)
Theorem update_then_load_shows_country ds w c m :
  call_failure ds = None ->
  Forall (fun r => 0 <= population r) (cities ds) ->
  selected_country (store w) = c ->
  c <> "" -> apostrophe_free c = true ->
  max_population (cities ds) c = Some m -> m <> 0 ->
  exists w', (update_country_stats ds ;; load_filtered_data ds) w
             = (Returned tt, w') /\
    selected_country (store w') = c /\
    max_population_in_country (store w') = m /\
    population_range (store w') = (0, m) /\
    is_loading (store w') = false /\
    open_connections w' = open_connections w /\
    ResultSet_for c 0 m (data_df (store w')) /\
    ((length (where_country c (cities ds)) <= 500)%nat ->
     data_df (store w') ≡ₚ where_country c (cities ds)) /\
    (forall r, r ∈ cities ds -> country r = c ->
       r ∉ data_df (store w') ->
       length (data_df (store w')) = 500%nat /\
       forall x, x ∈ data_df (store w') -> population r <= population x).
Proof.
  intros Hok Hpos Hsel Hne Hfree Hm Hm0.
  pose proof Hok as (Hi & Hl & Hs)%call_failure_None.
  assert (Hne' : selected_country (store w) <> "") by congruence.
  unfold mbind, Eff_bind.
  rewrite (update_country_stats_runs ds w Hi Hl Hne').
  unfold sql_max_population.
  rewrite Hs, Hsel, (scan_literal_apostrophe_free c Hfree), Hm.
  destruct (Z.eqb_spec m 0) as [|_]; [done|].
  match goal with
  | |- context [load_filtered_data ds ?w1] => set (w1' := w1)
  end.
  assert (Hq : query_answered ds w1' c 0 m).
  { repeat split; try done. simpl.
    by apply scan_literal_apostrophe_free. }
  destruct (load_filtered_data_rows ds w1' c 0 m Hq) as (Hret & Hdf & Hload).
  assert (Hopen : open_connections w1' = open_connections w)
    by (by apply open_connections_closed_call).
  pose proof (proj2 (effects_close_their_connection_aux ds w1' Hi Hl)) as Hopen2.
  pose proof (load_filtered_data_frame ds w1') as (Hf1 & Hf2 & Hf3 & Hf4).
  unfold state_after in Hdf, Hload, Hf1, Hf2, Hf3, Hf4.
  destruct (load_filtered_data ds w1') as [r w2].
  simpl in Hret, Hdf, Hload, Hopen2, Hf1, Hf2, Hf3, Hf4.
  subst r. exists w2. split; [reflexivity|].
  pose proof (matching_cities_full_range _ _ _ Hpos Hm) as Hfull.
  rewrite Hdf.
  split; [done|]. split; [done|]. split; [done|]. split; [done|].
  split; [congruence|]. split; [apply filtered_cities_ResultSet|]. split.
  - intros Hlen. rewrite <- Hfull. apply filtered_cities_all.
    by rewrite Hfull.
  - intros r Hr Hc Hout. apply filtered_cities_top; [|exact Hout].
    rewrite Hfull. apply list_elem_of_filter. by split.
Qed.

Lemma update_then_load_shows_country_witness :
  call_failure (healthy sample_cities) = None /\
  Forall (fun r => 0 <= population r) (cities (healthy sample_cities)) /\
  selected_country (store sample_loaded) = "USA" /\
  "USA" <> "" /\ apostrophe_free "USA" = true /\
  max_population (cities (healthy sample_cities)) "USA" = Some 8419000 /\
  8419000 <> 0 /\
  exists w', (update_country_stats (healthy sample_cities) ;;
              load_filtered_data (healthy sample_cities)) sample_loaded
             = (Returned tt, w') /\
    selected_country (store w') = "USA" /\
    max_population_in_country (store w') = 8419000 /\
    population_range (store w') = (0, 8419000) /\
    is_loading (store w') = false /\
    open_connections w' = open_connections sample_loaded /\
    ResultSet_for "USA" 0 8419000 (data_df (store w')) /\
    ((length (where_country "USA" (cities (healthy sample_cities))) <= 500)%nat ->
     data_df (store w') ≡ₚ where_country "USA" (cities (healthy sample_cities))) /\
    (forall r, r ∈ cities (healthy sample_cities) -> country r = "USA" ->
       r ∉ data_df (store w') ->
       length (data_df (store w')) = 500%nat /\
       forall x, x ∈ data_df (store w') -> population r <= population x).
Proof.
  assert (Hpos : Forall (fun r => 0 <= population r)
                   (cities (healthy sample_cities)))
    by (repeat constructor; simpl; lia).
  split; [reflexivity|]. split; [exact Hpos|]. split; [reflexivity|].
  split; [discriminate|]. split; [reflexivity|]. split; [reflexivity|].
  split; [discriminate|].
  apply (update_then_load_shows_country (healthy sample_cities) sample_loaded
           "USA" 8419000);
    first [exact Hpos | reflexivity | discriminate].
Defined.

(** *** What the map shows *)






(** *** Queries completed in turn *)

Lemma load_filtered_data_begin_runs ds w lo hi :
  install_error ds = None -> load_error ds = None ->
  selected_country (store w) <> "" ->
  population_range (store w) = (lo, hi) ->
  exists w1,
    load_filtered_data_begin ds w =
      (Returned (Some {| frame_country := selected_country (store w);
                         frame_pop_min := lo; frame_pop_max := hi;
                         frame_con := connections_made w |}), w1) /\
    selected_country (store w1) = selected_country (store w).
Proof.
  intros Hi Hl Hne Hr. unfold load_filtered_data_begin. unfold_eff.
  rewrite Hr. case_decide; [done|]. simpl. rewrite Hi, Hl. simpl.
  eexists. split; reflexivity.
Qed.

(** X18: on a host where a query completes before anything else
    happens (a country [b] is picked, [load_filtered_data] starts, its
    query completes), the dataset published is the answer for [b] and
    the range held then (the empty dataset if the query raised), [b] is
    still selected, the loading flag is down and the run is no longer in
    flight. *)
Theorem host_query_completed_in_turn ds h b task :
  install_error ds = None -> load_error ds = None -> b <> "" ->
  selected_country
    (store (world (host_run ds h [SelectCountry b; EffectStarts task;
                                  QueryCompletes task]))) = b /\
  data_df
    (store (world (host_run ds h [SelectCountry b; EffectStarts task;
                                  QueryCompletes task])))
    = match sql_filtered_cities ds b
              (fst (population_range (store (world h))))
              (snd (population_range (store (world h)))) with
      | Returned df => df
      | Raised _ => empty_DataFrame
      end /\
  is_loading
    (store (world (host_run ds h [SelectCountry b; EffectStarts task;
                                  QueryCompletes task]))) = false /\
  in_flight (host_run ds h [SelectCountry b; EffectStarts task;
                            QueryCompletes task])
    = delete task (in_flight h).
Proof.
  intros Hi Hl Hb. unfold host_run.
  cbn [foldl host_step world in_flight].
  set (w0 := snd (selected_country_set b (world h))).
  assert (Hsel : selected_country (store w0) = b) by reflexivity.
  assert (Hr : population_range (store w0)
               = (fst (population_range (store (world h))),
                  snd (population_range (store (world h)))))
    by (simpl; by destruct (population_range (store (world h)))).
  destruct (load_filtered_data_begin_runs ds w0 _ _ Hi Hl
              ltac:(by rewrite Hsel) Hr) as (w1 & Hbegin & Hsel1).
  rewrite Hbegin. simpl. rewrite lookup_insert_eq. simpl.
  rewrite load_filtered_data_finish_runs. simpl.
  rewrite Hsel1, Hsel, delete_insert_eq. by repeat split.
Qed.

Lemma host_query_completed_in_turn_witness :
  install_error (healthy sample_cities) = None /\
  load_error (healthy sample_cities) = None /\
  "France" <> "" /\
  selected_country
    (store (world (host_run (healthy sample_cities) idle_host
                     [SelectCountry "France"; EffectStarts 1;
                      QueryCompletes 1]))) = "France" /\
  data_df
    (store (world (host_run (healthy sample_cities) idle_host
                     [SelectCountry "France"; EffectStarts 1;
                      QueryCompletes 1])))
    = match sql_filtered_cities (healthy sample_cities) "France"
              (fst (population_range (store (world idle_host))))
              (snd (population_range (store (world idle_host)))) with
      | Returned df => df
      | Raised _ => empty_DataFrame
      end /\
  is_loading
    (store (world (host_run (healthy sample_cities) idle_host
                     [SelectCountry "France"; EffectStarts 1;
                      QueryCompletes 1]))) = false /\
  in_flight (host_run (healthy sample_cities) idle_host
               [SelectCountry "France"; EffectStarts 1; QueryCompletes 1])
    = delete 1%nat (in_flight idle_host).
Proof.
  split; [reflexivity|]. split; [reflexivity|]. split; [discriminate|].
  apply (host_query_completed_in_turn (healthy sample_cities) idle_host
           "France" 1%nat); first [reflexivity | discriminate].
Defined.

(** X19: when no step of the call fails, [load_country_list] closes
    the connection it opened: the connections open after it are those
    that were open before. *)
Theorem load_country_list_closes_on_success ds w :
  call_failure ds = None ->
  open_connections (snd (load_country_list ds w)) = open_connections w.
Proof.
  intros Hok. rewrite (load_country_list_success ds w Hok).
  by apply open_connections_closed_call.
Qed.

Lemma load_country_list_closes_on_success_witness :
  call_failure (healthy sample_cities) = None /\
  open_connections (snd (load_country_list (healthy sample_cities) usa_picked))
    = open_connections usa_picked.
Proof.
  split; [reflexivity|].
  apply (load_country_list_closes_on_success (healthy sample_cities) usa_picked).
  reflexivity.
Defined.
